(** * PipePlay: the playback state core

    A shallow embedding of the playback state kept by [MPVBackend]
    (src/mpv_backend.py), of the entity [PipePlayPlayer] wrapped around it
    (src/media_player.py) and of the two transports that drive it: the HTTP
    command handler (src/api_server.py) and the body of the interactive
    console loop (src/main.py).

    Conventions.
    - A Python float is taken as the rational it denotes, plus the three
      special values; comparisons, truthiness and [int()] agree with the
      rationals, and the one product the code forms, [volume * 100] for the
      engine, is taken exact.
    - The mpv engine is an opaque object.  What the model keeps of it is the
      list of requests it has received; whether a request returns or raises
      is an input of every method (an [Oracle]), since the code has
      [try/except] paths for both.
    - Home Assistant is outside the sources.  Of its [Entity] the model
      keeps whether [hass] is set: the request for a state write raises
      [RuntimeError] while it is [None], which is how [main.py] leaves it.
    - The look-up of a locator on the file system and the decoding of a
      request body are inputs as well, with their raising outcomes.
    - The lock only brackets field writes; every method and every callback
      is one atomic step of the model. *)

From Stdlib Require Import String List Bool ZArith QArith Lia.
Import ListNotations.
Open Scope string_scope.

(** ** Python values *)

Inductive pyfloat : Type :=
| Fin (q : Q)
| PosInf
| NegInf
| NaN.

(** Python's [a <= b] on floats; every comparison with NaN is false. *)
Definition fle (a b : pyfloat) : bool :=
  match a, b with
  | NaN, _ | _, NaN => false
  | NegInf, _ => true
  | _, PosInf => true
  | Fin x, Fin y => Qle_bool x y
  | _, _ => false
  end.

(** Python's [a > b]. *)
Definition fgt (a b : pyfloat) : bool := fle b a && negb (fle a b).

(** Truthiness of a float: false exactly for zero. *)
Definition ftruthy (a : pyfloat) : bool :=
  match a with
  | Fin q => negb (Qnum q =? 0)%Z
  | _ => true
  end.

(** [volume * 100]; the product is exact in the model. *)
Definition fmul100 (a : pyfloat) : pyfloat :=
  match a with
  | Fin q => Fin (q * 100)
  | other => other
  end.

Definition f0 : pyfloat := Fin 0.
Definition f1 : pyfloat := Fin 1.

(** The range test of the HTTP handler, [0 <= level <= 1]. *)
Definition in_unit_range (v : pyfloat) : bool := fle f0 v && fle v f1.

(** The same range as a proposition, for statements. *)
Definition InUnit (v : pyfloat) : Prop :=
  exists q, v = Fin q /\ (0 <= q)%Q /\ (q <= 1)%Q.

(** Truthiness of a string, and of an optional string ([None] is false). *)
Definition struthy (s : string) : bool :=
  match s with EmptyString => false | _ => true end.

Definition otruthy (m : option string) : bool :=
  match m with Some s => struthy s | None => false end.

(** ** Exceptions and the state-and-error monad *)

(** Requests the backend sends to the mpv instance. *)
Inductive EngineCall : Type :=
| EObserve (property : string)
| EPlay (media_url : string)
| ESetPause (value : bool)
| EStop
| ESetVolume (value : pyfloat)
| ESetMute (value : bool)
| ESeek (position : pyfloat)
| ETerminate.

Inductive exn : Type :=
| AttributeError (attr : string)   (* attribute access on None *)
| EngineError (c : EngineCall)     (* the engine raised on request c *)
| EngineInitError                  (* mpv.MPV(...) raised *)
| ValueError
| OverflowError
| TypeError
| OSError
| RuntimeError.                    (* Home Assistant: hass is None *)

Inductive Res (A : Type) : Type :=
| Ok (a : A)
| Raised (e : exn).
Arguments Ok {A} a.
Arguments Raised {A} e.

(** A computation over a mutable object of type [S]: it returns or raises,
    and the writes made before a raise stay. *)
Definition M (S A : Type) : Type := S -> Res A * S.

Definition ret {S A} (a : A) : M S A := fun s => (Ok a, s).

Definition raise {S A} (e : exn) : M S A := fun s => (Raised e, s).

Definition bind {S A B} (m : M S A) (k : A -> M S B) : M S B :=
  fun s => match m s with
           | (Ok a, s') => k a s'
           | (Raised e, s') => (Raised e, s')
           end.

(** [try: m  except Exception as e: h e]. *)
Definition try_except {S A} (m : M S A) (h : exn -> M S A) : M S A :=
  fun s => match m s with
           | (Ok a, s') => (Ok a, s')
           | (Raised e, s') => h e s'
           end.

Definition modify {S} (f : S -> S) : M S unit := fun s => (Ok tt, f s).

Definition gets {S A} (f : S -> A) : M S A := fun s => (Ok (f s), s).

Definition when {S} (c : bool) (m : M S unit) : M S unit :=
  if c then m else ret tt.

Declare Scope py_scope.
Delimit Scope py_scope with py.
Notation "x <- m ;; k" := (bind m (fun x => k))
  (at level 61, m at next level, right associativity) : py_scope.
Notation "m ;; k" := (bind m (fun _ => k))
  (at level 61, right associativity) : py_scope.
Open Scope py_scope.

(** Result and final object of a computation. *)
Definition result {S A} (r : Res A * S) : Res A := fst r.
Definition after {S A} (r : Res A * S) : S := snd r.

Definition returned {A} (r : Res A) : bool :=
  match r with Ok _ => true | Raised _ => false end.

(** ** The engine *)

(** The mpv instance: the requests it has received, oldest first. *)
Record MPV : Type := { requests : list EngineCall }.

Inductive outcome : Type := Returns | Raises.

(** How the engine answers each request during one method. *)
Definition Oracle : Type := EngineCall -> outcome.

Definition obliging : Oracle := fun _ => Returns.
Definition failing : Oracle := fun _ => Raises.

(** ** MPVBackend (src/mpv_backend.py) *)

Module Backend.

Record MPVBackend : Type := {
  _mpv_player : option MPV;
  _volume : pyfloat;
  _muted : bool;
  _state : string;
  _current_media : option string;
  _position : pyfloat;
  _duration : pyfloat;
  _state_callback : bool   (* a callback has been set *)
}.

(** [MPVBackend.__init__]. *)
Definition MPVBackend_init : MPVBackend :=
  {| _mpv_player := None;
     _volume := f1;
     _muted := false;
     _state := "idle";
     _current_media := None;
     _position := f0;
     _duration := f0;
     _state_callback := false |}.

Definition set_mpv_player (e : option MPV) (b : MPVBackend) : MPVBackend :=
  {| _mpv_player := e; _volume := _volume b; _muted := _muted b;
     _state := _state b; _current_media := _current_media b;
     _position := _position b; _duration := _duration b;
     _state_callback := _state_callback b |}.

Definition set_volume_field (v : pyfloat) (b : MPVBackend) : MPVBackend :=
  {| _mpv_player := _mpv_player b; _volume := v; _muted := _muted b;
     _state := _state b; _current_media := _current_media b;
     _position := _position b; _duration := _duration b;
     _state_callback := _state_callback b |}.

Definition set_muted_field (m : bool) (b : MPVBackend) : MPVBackend :=
  {| _mpv_player := _mpv_player b; _volume := _volume b; _muted := m;
     _state := _state b; _current_media := _current_media b;
     _position := _position b; _duration := _duration b;
     _state_callback := _state_callback b |}.

Definition set_state (s : string) (b : MPVBackend) : MPVBackend :=
  {| _mpv_player := _mpv_player b; _volume := _volume b; _muted := _muted b;
     _state := s; _current_media := _current_media b;
     _position := _position b; _duration := _duration b;
     _state_callback := _state_callback b |}.

Definition set_current_media (m : option string) (b : MPVBackend) : MPVBackend :=
  {| _mpv_player := _mpv_player b; _volume := _volume b; _muted := _muted b;
     _state := _state b; _current_media := m;
     _position := _position b; _duration := _duration b;
     _state_callback := _state_callback b |}.

Definition set_position (p : pyfloat) (b : MPVBackend) : MPVBackend :=
  {| _mpv_player := _mpv_player b; _volume := _volume b; _muted := _muted b;
     _state := _state b; _current_media := _current_media b;
     _position := p; _duration := _duration b;
     _state_callback := _state_callback b |}.

Definition set_duration (d : pyfloat) (b : MPVBackend) : MPVBackend :=
  {| _mpv_player := _mpv_player b; _volume := _volume b; _muted := _muted b;
     _state := _state b; _current_media := _current_media b;
     _position := _position b; _duration := d;
     _state_callback := _state_callback b |}.

Definition set_callback_field (c : bool) (b : MPVBackend) : MPVBackend :=
  {| _mpv_player := _mpv_player b; _volume := _volume b; _muted := _muted b;
     _state := _state b; _current_media := _current_media b;
     _position := _position b; _duration := _duration b;
     _state_callback := c |}.

(** The lock-guarded property getters. *)
Definition state (b : MPVBackend) : string := _state b.
Definition volume_level (b : MPVBackend) : pyfloat := _volume b.
Definition is_muted (b : MPVBackend) : bool := _muted b.
Definition current_media (b : MPVBackend) : option string := _current_media b.
Definition media_position (b : MPVBackend) : pyfloat := _position b.
Definition media_duration (b : MPVBackend) : pyfloat := _duration b.

(** The six fields a reader can observe: the playback state store. *)
Record Snapshot : Type := {
  snap_state : string;
  snap_media : option string;
  snap_position : pyfloat;
  snap_duration : pyfloat;
  snap_volume : pyfloat;
  snap_muted : bool
}.

Definition snapshot (b : MPVBackend) : Snapshot :=
  {| snap_state := state b;
     snap_media := current_media b;
     snap_position := media_position b;
     snap_duration := media_duration b;
     snap_volume := volume_level b;
     snap_muted := is_muted b |}.

(** One request to the mpv instance, [self._mpv_player.<c>].  On [None] the
    attribute access raises; otherwise the request is recorded and the
    engine answers as the oracle says. *)
Definition mpv_request (o : Oracle) (c : EngineCall) : M MPVBackend unit :=
  fun b =>
    match _mpv_player b with
    | None => (Raised (AttributeError "_mpv_player"), b)
    | Some e =>
        let b' := set_mpv_player (Some {| requests := requests e ++ [c] |}) b in
        match o c with
        | Returns => (Ok tt, b')
        | Raises => (Raised (EngineError c), b')
        end
    end.

(** [if self._mpv_player:]. *)
Definition has_engine (b : MPVBackend) : bool :=
  match _mpv_player b with Some _ => true | None => false end.

(** Requests the engine has received so far ([[]] without an engine). *)
Definition engine_log (b : MPVBackend) : list EngineCall :=
  match _mpv_player b with Some e => requests e | None => [] end.

(** [initialize]: build the instance and register the four observers; a
    failure is logged and re-raised.  [ctor] is how [mpv.MPV(...)] ends. *)
Definition initialize (ctor : outcome) (o : Oracle) : M MPVBackend unit :=
  try_except
    (match ctor with
     | Returns => modify (set_mpv_player (Some {| requests := [] |}))
     | Raises => raise EngineInitError
     end ;;
     mpv_request o (EObserve "time-pos") ;;
     mpv_request o (EObserve "duration") ;;
     mpv_request o (EObserve "pause") ;;
     mpv_request o (EObserve "eof-reached"))
    (fun e => raise e).

Definition set_state_callback : M MPVBackend unit :=
  modify (set_callback_field true).

(** [_notify_state_change] writes no field.  When a callback is set it
    reaches [asyncio.create_task]; what that call does depends on the
    thread it runs on (it needs a running event loop, which the engine's
    own thread does not have) and is not part of the store.  The callbacks
    below return the new store and this flag: whether the call is
    reached. *)
Definition _notify_state_change (b : MPVBackend) : bool := _state_callback b.

Definition _on_position_change (name : string) (value : option pyfloat)
    (b : MPVBackend) : MPVBackend * bool :=
  match value with
  | Some v => let b' := set_position v b in (b', _notify_state_change b')
  | None => (b, false)
  end.

Definition _on_duration_change (name : string) (value : option pyfloat)
    (b : MPVBackend) : MPVBackend * bool :=
  match value with
  | Some v => let b' := set_duration v b in (b', _notify_state_change b')
  | None => (b, false)
  end.

(** [value] is the engine's pause flag ([None] is falsy). *)
Definition _on_pause_change (name : string) (value : option bool)
    (b : MPVBackend) : MPVBackend * bool :=
  let b' :=
    match value with
    | Some true => set_state "paused" b
    | _ => if otruthy (_current_media b) then set_state "playing" b else b
    end in
  (b', _notify_state_change b').

Definition _on_eof (name : string) (value : option bool)
    (b : MPVBackend) : MPVBackend * bool :=
  match value with
  | Some true =>
      let b' := set_position f0 (set_current_media None (set_state "idle" b)) in
      (b', _notify_state_change b')
  | _ => (b, false)
  end.

Definition play_media (o : Oracle) (media_url : string)
    (media_type : option string) : M MPVBackend unit :=
  try_except
    (modify (fun b => set_state "playing" (set_current_media (Some media_url) b)) ;;
     mpv_request o (EPlay media_url))
    (fun e =>
       modify (fun b => set_current_media None (set_state "idle" b)) ;;
       raise e).

Definition pause (o : Oracle) : M MPVBackend unit :=
  e <- gets has_engine ;;
  when e (mpv_request o (ESetPause true)).

Definition resume (o : Oracle) : M MPVBackend unit :=
  e <- gets has_engine ;;
  when e (mpv_request o (ESetPause false)).

Definition stop (o : Oracle) : M MPVBackend unit :=
  e <- gets has_engine ;;
  when e
    (mpv_request o EStop ;;
     modify (fun b =>
       set_position f0 (set_current_media None (set_state "idle" b)))).

Definition set_volume (o : Oracle) (volume : pyfloat) : M MPVBackend unit :=
  try_except
    (e <- gets has_engine ;;
     when e (mpv_request o (ESetVolume (fmul100 volume))) ;;
     modify (set_volume_field volume))
    (fun _ => ret tt).

Definition set_mute (o : Oracle) (muted : bool) : M MPVBackend unit :=
  try_except
    (e <- gets has_engine ;;
     when e (mpv_request o (ESetMute muted)) ;;
     modify (set_muted_field muted))
    (fun _ => ret tt).

Definition seek (o : Oracle) (position : pyfloat) : M MPVBackend unit :=
  try_except
    (c <- gets (fun b => has_engine b && otruthy (_current_media b)) ;;
     when c (mpv_request o (ESeek position)))
    (fun _ => ret tt).

Definition cleanup (o : Oracle) : M MPVBackend unit :=
  try_except
    (e <- gets has_engine ;;
     when e
       (mpv_request o ETerminate ;;
        modify (set_mpv_player None)))
    (fun _ => ret tt).

End Backend.

(** ** PipePlayPlayer (src/media_player.py) *)

(** [int(x)]: truncation towards zero; NaN and the infinities raise. *)
Definition py_int (a : pyfloat) : Res Z :=
  match a with
  | Fin q => Ok (Z.quot (Qnum q) (Z.pos (Qden q)))
  | NaN => Raised ValueError
  | _ => Raised OverflowError
  end.

(** The members of Home Assistant's [MediaPlayerState] the entity names. *)
Inductive MediaPlayerState : Type := IDLE | PLAYING | PAUSED | BUFFERING.

Definition MediaPlayerState_eqb (a b : MediaPlayerState) : bool :=
  match a, b with
  | IDLE, IDLE | PLAYING, PLAYING | PAUSED, PAUSED | BUFFERING, BUFFERING => true
  | _, _ => false
  end.

(** What the look-up of [media_id] on the file system gives when it
    returns ([async_play_media], the branch on [Path(media_id).exists()]). *)
Inductive Probe : Type :=
| LocalFile (title artist album : option string)  (* tags from extract_metadata *)
| NotAFile (name : string).                       (* Path(media_id).name *)

(** How the look-up ends: it returns, or [Path(media_id).exists()] raises
    (an error of the file system that [exists] lets through).  The call
    stands inside the [try] of [async_play_media], before any write. *)
Inductive Lookup : Type :=
| Found (probe : Probe)
| LookupRaises (e : exn).

Module Player.

(** [hass] is the attribute Home Assistant's [Entity] keeps: [None] after
    construction, set by Home Assistant when a platform adds the entity.
    The model keeps whether it is set. *)
Record PipePlayPlayer : Type := {
  _backend : Backend.MPVBackend;
  _media_title : option string;
  _media_artist : option string;
  _media_album : option string;
  _media_content_type : option string;
  _media_duration : option pyfloat;
  _media_position : option pyfloat;
  hass : bool
}.

(** [PipePlayPlayer.__init__]. *)
Definition PipePlayPlayer_init : PipePlayPlayer :=
  {| _backend := Backend.MPVBackend_init;
     _media_title := None; _media_artist := None; _media_album := None;
     _media_content_type := None;
     _media_duration := None; _media_position := None;
     hass := false |}.

Definition with_backend (b : Backend.MPVBackend) (p : PipePlayPlayer) : PipePlayPlayer :=
  {| _backend := b;
     _media_title := _media_title p; _media_artist := _media_artist p;
     _media_album := _media_album p;
     _media_content_type := _media_content_type p;
     _media_duration := _media_duration p;
     _media_position := _media_position p;
     hass := hass p |}.

Definition with_tags (title artist album : option string) (p : PipePlayPlayer)
    : PipePlayPlayer :=
  {| _backend := _backend p;
     _media_title := title; _media_artist := artist; _media_album := album;
     _media_content_type := _media_content_type p;
     _media_duration := _media_duration p;
     _media_position := _media_position p;
     hass := hass p |}.

Definition with_content_type (t : option string) (p : PipePlayPlayer)
    : PipePlayPlayer :=
  {| _backend := _backend p;
     _media_title := _media_title p; _media_artist := _media_artist p;
     _media_album := _media_album p;
     _media_content_type := t;
     _media_duration := _media_duration p;
     _media_position := _media_position p;
     hass := hass p |}.

Definition with_hass (a : bool) (p : PipePlayPlayer) : PipePlayPlayer :=
  {| _backend := _backend p;
     _media_title := _media_title p; _media_artist := _media_artist p;
     _media_album := _media_album p;
     _media_content_type := _media_content_type p;
     _media_duration := _media_duration p;
     _media_position := _media_position p;
     hass := a |}.

(** A backend method run on [self._backend]. *)
Definition on_backend {A} (m : M Backend.MPVBackend A) : M PipePlayPlayer A :=
  fun p => let (r, b') := m (_backend p) in (r, with_backend b' p).

(** [Entity.async_schedule_update_ha_state] is Home Assistant's.  It writes
    no field of the player; it raises [RuntimeError] when [hass] is [None],
    and on an entity that has been added it asks for a state write and
    returns. *)
Definition async_schedule_update_ha_state : M PipePlayPlayer unit :=
  a <- gets hass ;;
  if a then ret tt else raise RuntimeError.

(** [state]: [state_mapping.get(backend_state, MediaPlayerState.IDLE)]. *)
Definition state (p : PipePlayPlayer) : MediaPlayerState :=
  let backend_state := Backend.state (_backend p) in
  if String.eqb backend_state "idle" then IDLE
  else if String.eqb backend_state "playing" then PLAYING
  else if String.eqb backend_state "paused" then PAUSED
  else if String.eqb backend_state "buffering" then BUFFERING
  else IDLE.

Definition volume_level (p : PipePlayPlayer) : pyfloat :=
  Backend.volume_level (_backend p).

Definition is_volume_muted (p : PipePlayPlayer) : bool :=
  Backend.is_muted (_backend p).

Definition media_content_type (p : PipePlayPlayer) : option string :=
  _media_content_type p.
Definition media_title (p : PipePlayPlayer) : option string := _media_title p.
Definition media_artist (p : PipePlayPlayer) : option string := _media_artist p.
Definition media_album_name (p : PipePlayPlayer) : option string := _media_album p.

(** [int(duration) if duration and duration > 0 else None]. *)
Definition media_duration (p : PipePlayPlayer) : Res (option Z) :=
  let duration := Backend.media_duration (_backend p) in
  if ftruthy duration && fgt duration f0
  then match py_int duration with Ok z => Ok (Some z) | Raised e => Raised e end
  else Ok None.

(** [int(position) if position else None]. *)
Definition media_position (p : PipePlayPlayer) : Res (option Z) :=
  let position := Backend.media_position (_backend p) in
  if ftruthy position
  then match py_int position with Ok z => Ok (Some z) | Raised e => Raised e end
  else Ok None.

Definition MUSIC : string := "music".
Definition PODCAST : string := "podcast".

Definition async_play_media (o : Oracle) (lookup : Lookup)
    (media_type : string) (media_id : string) : M PipePlayPlayer unit :=
  try_except
    (match lookup with
     | Found (LocalFile title artist album) =>
         modify (with_tags title artist album)
     | Found (NotAFile name) =>
         modify (with_tags (Some (if struthy name then name else "Unknown"))
                           None None)
     | LookupRaises e => raise e
     end ;;
     (if String.eqb media_type MUSIC then modify (with_content_type (Some MUSIC))
      else if String.eqb media_type PODCAST
           then modify (with_content_type (Some PODCAST))
           else modify (with_content_type (Some MUSIC))) ;;
     on_backend (Backend.play_media o media_id (Some media_type)) ;;
     async_schedule_update_ha_state)
    (fun e => raise e).   (* logged and re-raised *)

Definition async_media_play (o : Oracle) : M PipePlayPlayer unit :=
  s <- gets state ;;
  if MediaPlayerState_eqb s PAUSED
  then on_backend (Backend.resume o)
  else ret tt.   (* a warning is logged *)

Definition async_media_pause (o : Oracle) : M PipePlayPlayer unit :=
  on_backend (Backend.pause o).

Definition _clear_media_info (p : PipePlayPlayer) : PipePlayPlayer :=
  {| _backend := _backend p;
     _media_title := None; _media_artist := None; _media_album := None;
     _media_content_type := None;
     _media_duration := None; _media_position := None;
     hass := hass p |}.

Definition async_media_stop (o : Oracle) : M PipePlayPlayer unit :=
  on_backend (Backend.stop o) ;;
  modify _clear_media_info ;;
  async_schedule_update_ha_state.

Definition async_set_volume_level (o : Oracle) (volume : pyfloat)
    : M PipePlayPlayer unit :=
  on_backend (Backend.set_volume o volume) ;;
  async_schedule_update_ha_state.

Definition async_mute_volume (o : Oracle) (mute : bool) : M PipePlayPlayer unit :=
  on_backend (Backend.set_mute o mute) ;;
  async_schedule_update_ha_state.

Definition async_media_seek (o : Oracle) (position : pyfloat)
    : M PipePlayPlayer unit :=
  on_backend (Backend.seek o position) ;;
  async_schedule_update_ha_state.

Definition async_added_to_hass (ctor : outcome) (o : Oracle)
    : M PipePlayPlayer unit :=
  on_backend (Backend.initialize ctor o) ;;
  on_backend Backend.set_state_callback.

Definition async_will_remove_from_hass (o : Oracle) : M PipePlayPlayer unit :=
  on_backend (Backend.cleanup o).

(** What Home Assistant does when a platform adds the entity: it sets
    [hass] and then calls [async_added_to_hass].  No file of the service
    does this; [main.py] only constructs the entity. *)
Definition added_by_platform (ctor : outcome) (o : Oracle)
    : M PipePlayPlayer unit :=
  modify (with_hass true) ;;
  async_added_to_hass ctor o.

End Player.

(** ** JSON values

    What [request.json()] decodes a request body to. *)

#[warnings="-register-all"]
Inductive json : Type :=
| JNull
| JBool (b : bool)
| JNum (x : pyfloat)
| JStr (s : string)
| JArr (items : list json)
| JObj (members : list (string * json)).

(** Truthiness of a decoded value. *)
Definition jtruthy (j : json) : bool :=
  match j with
  | JNull => false
  | JBool b => b
  | JNum x => ftruthy x
  | JStr s => struthy s
  | JArr items => match items with [] => false | _ => true end
  | JObj members => match members with [] => false | _ => true end
  end.

(** The number a value is in a comparison or a product: a JSON number, or
    a JSON boolean, since [bool] is a subclass of [int] ([True] is 1).
    [None] for the values on which [0 <= level] raises [TypeError]. *)
Definition jnumber (j : json) : option pyfloat :=
  match j with
  | JNum x => Some x
  | JBool true => Some f1
  | JBool false => Some f0
  | _ => None
  end.

(** ** The HTTP command handler (src/api_server.py) *)

Inductive ErrorText : Type :=
| Text (s : string)
| UnknownCommandText (c : option json)   (* f"Unknown command: {command}" *)
| StrOf (e : exn).                   (* str(e) *)

Module Api.

(** A body that decodes to a JSON object, as the handler reads it: what
    [data.get] gives for each of the six keys, [None] for an absent key. *)
Record CommandData : Type := {
  command : option json;
  media_type : option json;
  media_id : option json;
  level : option json;
  muted : option json;
  position : option json
}.

(** What [await request.json()] gives. *)
Inductive Body : Type :=
| Unreadable (e : exn)        (* raises something other than JSONDecodeError *)
| NotJson                     (* raises JSONDecodeError *)
| NotObject                   (* null, a boolean, a number, a string, an array *)
| Object (data : CommandData).

Record Response : Type := {
  status : Z;
  success : bool;
  error : option ErrorText
}.

Definition succeeded : Response :=
  {| status := 200; success := true; error := None |}.

Definition failed (code : Z) (msg : ErrorText) : Response :=
  {| status := code; success := false; error := Some msg |}.

(** [command == name]. *)
Definition is_command (c : option json) (name : string) : bool :=
  match c with Some (JStr s) => String.eqb s name | _ => false end.

(** [v is None]: the key is absent or holds null. *)
Definition is_none (v : option json) : bool :=
  match v with None | Some JNull => true | _ => false end.

(** Truthiness of what [data.get] returned. *)
Definition truthy (v : option json) : bool :=
  match v with Some j => jtruthy j | None => false end.

(** The [media_type] handed on.  The entity only compares it with the two
    members of [MediaType] and the backend ignores it, so a value that is
    not a string behaves as the empty string does. *)
Definition media_type_text (j : json) : string :=
  match j with JStr s => s | _ => "" end.

(** The chain of [if command == ...] branches, run on the player.
    Two arguments are handed on without a check of their type: a [muted]
    that is not a boolean is kept by its truth value, and a [position] that
    is not a number is recorded as NaN, since the store's flag is a boolean
    and the logged request carries a number. *)
Definition dispatch (o : Oracle) (lookup : Lookup) (data : CommandData)
    : M Player.PipePlayPlayer Response :=
  let c := command data in
  if is_command c "play" then
    Player.async_media_play o ;; ret succeeded
  else if is_command c "pause" then
    Player.async_media_pause o ;; ret succeeded
  else if is_command c "stop" then
    Player.async_media_stop o ;; ret succeeded
  else if is_command c "play_media" then
    let mtype := match media_type data with Some t => t | None => JStr "music" end in
    if negb (truthy (media_id data)) then
      ret (failed 400 (Text "media_id required for play_media command"))
    else
      match media_id data with
      | Some (JStr id) =>
          Player.async_play_media o lookup (media_type_text mtype) id ;;
          ret succeeded
      | _ => raise TypeError   (* Path(media_id), first call in the entity's try *)
      end
  else if is_command c "volume" then
    match level data with
    | None | Some JNull =>
        ret (failed 400 (Text "level must be between 0 and 1"))
    | Some l =>
        match jnumber l with
        | Some v =>
            if negb (in_unit_range v)
            then ret (failed 400 (Text "level must be between 0 and 1"))
            else Player.async_set_volume_level o v ;; ret succeeded
        | None => raise TypeError   (* 0 <= level *)
        end
    end
  else if is_command c "mute" then
    match muted data with
    | None | Some JNull => ret (failed 400 (Text "muted parameter required"))
    | Some m => Player.async_mute_volume o (jtruthy m) ;; ret succeeded
    end
  else if is_command c "seek" then
    match position data with
    | None | Some JNull => ret (failed 400 (Text "position parameter required"))
    | Some pos =>
        Player.async_media_seek o
          (match jnumber pos with Some x => x | None => NaN end) ;;
        ret succeeded
    end
  else ret (failed 400 (UnknownCommandText c)).

(** [_handle_command].  [mp] is the server's [_media_player].  The body is
    decoded and [data.get("command")] is read before the player is looked
    at, so a body that is not an object fails on [get] with or without a
    player; every exception other than the decoder's is answered 500. *)
Definition _handle_command (o : Oracle) (lookup : Lookup)
    (body : Body) (mp : option Player.PipePlayPlayer)
    : Response * option Player.PipePlayPlayer :=
  match body with
  | Unreadable e => (failed 500 (StrOf e), mp)
  | NotJson => (failed 400 (Text "Invalid JSON"), mp)
  | NotObject => (failed 500 (StrOf (AttributeError "get")), mp)
  | Object data =>
      match mp with
      | None => (failed 503 (Text "Media player not initialized"), None)
      | Some p =>
          match dispatch o lookup data p with
          | (Ok resp, p') => (resp, Some p')
          | (Raised e, p') => (failed 500 (StrOf e), Some p')
          end
      end
  end.

(** The body of a [volume] request. *)
Definition volume_request (l : json) : CommandData :=
  {| command := Some (JStr "volume"); media_type := None; media_id := None;
     level := Some l; muted := None; position := None |}.

Definition play_media_request (id : string) : CommandData :=
  {| command := Some (JStr "play_media"); media_type := None;
     media_id := Some (JStr id);
     level := None; muted := None; position := None |}.

End Api.

(** ** The interactive console (src/main.py) *)

Module Console.



Section Loop.

(** [float(s)]: the parsed number, or [None] for a [ValueError]. *)
Variable float : string -> option pyfloat.

(** [PipePlayService.play_media]. *)
Definition play_media (o : Oracle) (lookup : Lookup) (media_url : string)
    (mp : option Player.PipePlayPlayer)
    : Res unit * option Player.PipePlayPlayer :=
  match mp with
  | Some p =>
      let (r, p') := Player.async_play_media o lookup "music" media_url p in
      (r, Some p')
  | None => (Ok tt, None)
  end.




End Loop.

End Console.

(** ** Histories of the backend

    Everything that can happen to one [MPVBackend]: a method called by some
    transport, with the engine's answers during the call, or a property
    notification delivered by the engine. *)

Inductive Event : Type :=
| PositionChanged (value : option pyfloat)   (* observer of time-pos *)
| DurationChanged (value : option pyfloat)   (* observer of duration *)
| PauseChanged (value : option bool)         (* observer of pause *)
| EndOfStream (value : option bool).         (* observer of eof-reached *)

Inductive Command : Type :=
| CInitialize (ctor : outcome)
| CSetStateCallback
| CCleanup
| CPlayMedia (media_url : string) (media_type : option string)
| CPause
| CResume
| CStop
| CSetVolume (volume : pyfloat)
| CSetMute (muted : bool)
| CSeek (position : pyfloat).

Inductive Action : Type :=
| Do (c : Command) (o : Oracle)
| Deliver (e : Event).

Definition perform (c : Command) (o : Oracle) : M Backend.MPVBackend unit :=
  match c with
  | CInitialize ctor => Backend.initialize ctor o
  | CSetStateCallback => Backend.set_state_callback
  | CCleanup => Backend.cleanup o
  | CPlayMedia url mt => Backend.play_media o url mt
  | CPause => Backend.pause o
  | CResume => Backend.resume o
  | CStop => Backend.stop o
  | CSetVolume v => Backend.set_volume o v
  | CSetMute m => Backend.set_mute o m
  | CSeek p => Backend.seek o p
  end.

Definition deliver (e : Event) (b : Backend.MPVBackend) : Backend.MPVBackend :=
  fst match e with
      | PositionChanged v => Backend._on_position_change "time-pos" v b
      | DurationChanged v => Backend._on_duration_change "duration" v b
      | PauseChanged v => Backend._on_pause_change "pause" v b
      | EndOfStream v => Backend._on_eof "eof-reached" v b
      end.

Definition step (a : Action) (b : Backend.MPVBackend) : Backend.MPVBackend :=
  match a with
  | Do c o => after (perform c o b)
  | Deliver e => deliver e b
  end.

(** The store after a history, oldest action first. *)
Definition run (h : list Action) (b : Backend.MPVBackend) : Backend.MPVBackend :=
  fold_left (fun acc a => step a acc) h b.

Definition Reachable (b : Backend.MPVBackend) : Prop :=
  exists h, b = run h Backend.MPVBackend_init.

(** What may move the state field. *)
Inductive Cause : Type :=
| PlayMediaSucceeds
| PlayMediaFails
| PauseOn        (* PauseChanged(true) *)
| PauseOff       (* PauseChanged with a falsy value *)
| EndReached     (* EndOfStream(true) *)
| StopCommand.

Definition cause_of (a : Action) (b : Backend.MPVBackend) : option Cause :=
  match a with
  | Do (CPlayMedia url mt) o =>
      if returned (result (Backend.play_media o url mt b))
      then Some PlayMediaSucceeds else Some PlayMediaFails
  | Do CStop _ => Some StopCommand
  | Deliver (PauseChanged (Some true)) => Some PauseOn
  | Deliver (PauseChanged _) => Some PauseOff
  | Deliver (EndOfStream (Some true)) => Some EndReached
  | _ => None
  end.

(** The transitions of the state field as the specification's table of
    the playback state store lists them. *)
Inductive SpecTable : string -> Cause -> string -> Prop :=
| ST_play : SpecTable "idle" PlayMediaSucceeds "playing"
| ST_pause : SpecTable "playing" PauseOn "paused"
| ST_unpause : SpecTable "paused" PauseOff "playing"
| ST_eof_playing : SpecTable "playing" EndReached "idle"
| ST_eof_paused : SpecTable "paused" EndReached "idle"
| ST_stop_playing : SpecTable "playing" StopCommand "idle"
| ST_stop_paused : SpecTable "paused" StopCommand "idle".

(** The transitions the methods and callbacks make: [play_media] writes
    the state from every state, to playing when the engine accepts the
    locator and to idle when it raises. *)
Inductive CodeTable : string -> Cause -> string -> Prop :=
| CT_play : forall s, CodeTable s PlayMediaSucceeds "playing"
| CT_play_fails : forall s, CodeTable s PlayMediaFails "idle"
| CT_pause : CodeTable "playing" PauseOn "paused"
| CT_unpause : CodeTable "paused" PauseOff "playing"
| CT_eof_playing : CodeTable "playing" EndReached "idle"
| CT_eof_paused : CodeTable "paused" EndReached "idle"
| CT_stop_playing : CodeTable "playing" StopCommand "idle"
| CT_stop_paused : CodeTable "paused" StopCommand "idle".

(** [PauseChanged(true)] delivered while the store is idle. *)
Definition pause_while_idle (a : Action) (b : Backend.MPVBackend) : Prop :=
  a = Deliver (PauseChanged (Some true)) /\ Backend._state b = "idle".

(** The store invariant of the data model: a media reference exactly in
    the states playing, paused and buffering. *)
Definition media_iff_active (b : Backend.MPVBackend) : Prop :=
  Backend.current_media b <> None <->
  (Backend.state b = "playing" \/ Backend.state b = "paused"
   \/ Backend.state b = "buffering").

(** Some concrete stores used in examples. *)
Definition song : string := "/tmp/song.mp3".

Definition started : Backend.MPVBackend :=
  run [Do (CInitialize Returns) obliging] Backend.MPVBackend_init.

Definition playing_song : Backend.MPVBackend :=
  run [Do (CPlayMedia song (Some "music")) obliging] started.

Definition half : pyfloat := Fin (1 # 2).


(** The entity once a Home Assistant platform has added it, and then
    playing a song. *)
Definition added_player : Player.PipePlayPlayer :=
  after (Player.added_by_platform Returns obliging Player.PipePlayPlayer_init).

Definition player_with_song : Player.PipePlayPlayer :=
  after (Player.async_play_media obliging (Found (NotAFile "song.mp3")) "music"
           song added_player).

(** A store that is idle with a stale position: a song played up to second
    30, then a second [play_media] was refused by the engine. *)
Definition thirty : pyfloat := Fin 30.

Definition idle_after_refusal : Backend.MPVBackend :=
  run [Deliver (PositionChanged (Some thirty));
       Do (CPlayMedia "/tmp/broken.mp3" (Some "music")) failing]
      playing_song.

(** The store after [pause] was requested while idle and the engine
    reported its pause flag. *)
Definition paused_without_media : Backend.MPVBackend :=
  run [Do CPause obliging; Deliver (PauseChanged (Some true))] started.


(** The same entity once the engine has reported the pause flag set. *)
Definition paused_player : Player.PipePlayPlayer :=
  Player.with_backend
    (deliver (PauseChanged (Some true)) (Player._backend player_with_song))
    player_with_song.

(** What every history keeps: the state is one of the three literals the
    backend writes, and an idle store holds no media. *)
Definition well_shaped (b : Backend.MPVBackend) : Prop :=
  (Backend._state b = "idle" \/ Backend._state b = "playing"
   \/ Backend._state b = "paused") /\
  (Backend._state b = "idle" -> Backend._current_media b = None).

(** Histories in which no [PauseChanged(true)] arrives while the store
    is idle. *)
Inductive spared : Backend.MPVBackend -> list Action -> Prop :=
| spared_nil : forall b, spared b []
| spared_cons : forall b a h,
    ~ pause_while_idle a b -> spared (step a b) h -> spared b (a :: h).

(** The two shapes a store has along such histories. *)
Definition coherent (b : Backend.MPVBackend) : Prop :=
  (Backend._state b = "idle" /\ Backend._current_media b = None) \/
  ((Backend._state b = "playing" \/ Backend._state b = "paused") /\
   Backend._current_media b <> None).

(** The request a command sends when it reaches the engine. *)
Definition request_of (c : Command) : option EngineCall :=
  match c with
  | CPlayMedia url _ => Some (EPlay url)
  | CPause => Some (ESetPause true)
  | CResume => Some (ESetPause false)
  | CStop => Some EStop
  | CSetVolume v => Some (ESetVolume (fmul100 v))
  | CSetMute m => Some (ESetMute m)
  | CSeek p => Some (ESeek p)
  | CCleanup => Some ETerminate
  | CInitialize _ | CSetStateCallback => None
  end.

(** The observers [initialize] registers, in order. *)
Definition observers : list EngineCall :=
  [EObserve "time-pos"; EObserve "duration"; EObserve "pause";
   EObserve "eof-reached"].

(** Actions that neither create nor release the engine instance. *)
Definition keeps_engine (a : Action) : bool :=
  match a with
  | Do (CInitialize _) _ | Do CCleanup _ => false
  | _ => true
  end.

(** Whether a command, given an engine instance, sends its request: all
    do, except [seek], which needs current media, and the two that have no
    request. *)
Definition sends (c : Command) (b : Backend.MPVBackend) : bool :=
  match c with
  | CSeek _ => otruthy (Backend._current_media b)
  | _ => true
  end.

(** HTTP command requests served one after the other; each comes with the
    engine's answers and the file-system look-up during its handling. *)
Definition serve (requests : list (Oracle * Lookup * Api.Body))
    (mp : option Player.PipePlayPlayer) : option Player.PipePlayPlayer :=
  fold_left
    (fun acc r =>
       match r with
       | (o, lookup, body) => snd (Api._handle_command o lookup body acc)
       end)
    requests mp.

(** [z] is [q] truncated towards zero. *)
Definition truncates (q : Q) (z : Z) : Prop :=
  ((0 <= q)%Q -> (inject_Z z <= q)%Q /\ (q < inject_Z (z + 1))%Q) /\
  ((q <= 0)%Q -> (inject_Z (z - 1) < q)%Q /\ (q <= inject_Z z)%Q).

(** * Properties *)

(** ** Auxiliary facts *)

Ltac unfold_m :=
  unfold result, after, bind, try_except, when, gets, modify, ret, raise,
         Backend.mpv_request, Backend.has_engine in *.

Ltac split_engine b :=
  let e := fresh "eng" in
  destruct b as [[e|] ? ? ? ? ? ? ?].

Lemma in_unit_range_spec (v : pyfloat) :
  in_unit_range v = true <-> InUnit v.
Proof.
  unfold in_unit_range, InUnit, f0, f1. split.
  - destruct v as [q| | |]; simpl; try discriminate.
    intros H. apply andb_true_iff in H. destruct H as [H0 H1].
    exists q. repeat split; apply Qle_bool_iff; assumption.
  - intros [q [-> [H0 H1]]]. simpl.
    apply andb_true_iff. split; apply Qle_bool_iff; assumption.
Qed.

Lemma in_unit_range_false (v : pyfloat) :
  in_unit_range v = false <-> ~ InUnit v.
Proof.
  split.
  - intros H Hin. apply in_unit_range_spec in Hin. congruence.
  - intros H. destruct (in_unit_range v) eqn:E; [| reflexivity].
    exfalso. apply H. apply in_unit_range_spec. exact E.
Qed.

Lemma on_backend_run {A} (m : M Backend.MPVBackend A) (p : Player.PipePlayPlayer) :
  Player.on_backend m p =
  (fst (m (Player._backend p)),
   Player.with_backend (snd (m (Player._backend p))) p).
Proof.
  unfold Player.on_backend. destruct (m (Player._backend p)); reflexivity.
Qed.

(** The request for a state write returns on an entity that has been
    added and raises on one whose [hass] is [None]. *)
Lemma schedule_run (p : Player.PipePlayPlayer) :
  Player.async_schedule_update_ha_state p =
  (if Player.hass p then Ok tt else Raised RuntimeError, p).
Proof.
  unfold Player.async_schedule_update_ha_state, bind, gets, ret, raise.
  destruct (Player.hass p); reflexivity.
Qed.

(** A backend method followed by the request for a state write. *)
Lemma then_schedule_run (m : M Backend.MPVBackend unit)
    (p : Player.PipePlayPlayer) :
  (Player.on_backend m ;; Player.async_schedule_update_ha_state) p =
  (match fst (m (Player._backend p)) with
   | Ok _ => if Player.hass p then Ok tt else Raised RuntimeError
   | Raised e => Raised e
   end,
   Player.with_backend (snd (m (Player._backend p))) p).
Proof.
  unfold bind. rewrite on_backend_run.
  destruct (m (Player._backend p)) as [[[]|e] b1]; simpl; [| reflexivity].
  rewrite schedule_run. reflexivity.
Qed.

Lemma async_media_stop_run (o : Oracle) (p : Player.PipePlayPlayer) :
  Player.async_media_stop o p =
  match Backend.stop o (Player._backend p) with
  | (Ok _, b') =>
      (if Player.hass p then Ok tt else Raised RuntimeError,
       Player._clear_media_info (Player.with_backend b' p))
  | (Raised e, b') => (Raised e, Player.with_backend b' p)
  end.
Proof.
  unfold Player.async_media_stop, bind, modify. rewrite on_backend_run.
  destruct (Backend.stop o (Player._backend p)) as [[[]|e] b1]; simpl;
    [| reflexivity].
  rewrite schedule_run. reflexivity.
Qed.

(** Without an engine the three transport commands touch nothing. *)
Lemma pause_without_engine (o : Oracle) (b : Backend.MPVBackend) :
  Backend.has_engine b = false -> Backend.pause o b = (Ok tt, b).
Proof.
  intros H. unfold Backend.pause. unfold_m. rewrite H. reflexivity.
Qed.

Lemma resume_without_engine (o : Oracle) (b : Backend.MPVBackend) :
  Backend.has_engine b = false -> Backend.resume o b = (Ok tt, b).
Proof.
  intros H. unfold Backend.resume. unfold_m. rewrite H. reflexivity.
Qed.

Lemma stop_without_engine (o : Oracle) (b : Backend.MPVBackend) :
  Backend.has_engine b = false -> Backend.stop o b = (Ok tt, b).
Proof.
  intros H. unfold Backend.stop. unfold_m. rewrite H. reflexivity.
Qed.

(** ** C6: transport commands without an engine *)

(** C6, as stated, fails: on the freshly constructed backend, which has no
    engine instance, [pause], [resume] and [stop] all return normally. *)
Lemma C6_counterexample :
  Backend.has_engine Backend.MPVBackend_init = false /\
  Backend.pause obliging Backend.MPVBackend_init = (Ok tt, Backend.MPVBackend_init) /\
  Backend.resume obliging Backend.MPVBackend_init = (Ok tt, Backend.MPVBackend_init) /\
  Backend.stop obliging Backend.MPVBackend_init = (Ok tt, Backend.MPVBackend_init) /\
  ~ (forall o b, Backend.has_engine b = false ->
       exists e, result (Backend.pause o b) = Raised e).
Proof.
  repeat split.
  intros H. destruct (H obliging Backend.MPVBackend_init eq_refl) as [e He].
  discriminate He.
Qed.

(** C6, amended: when no engine instance exists, [pause()], [resume()] and
    [stop()] return normally, send no request and leave the whole backend
    object as it was. *)
Theorem C6_no_engine_is_noop (o : Oracle) (b : Backend.MPVBackend) :
  Backend.has_engine b = false ->
  Backend.pause o b = (Ok tt, b) /\
  Backend.resume o b = (Ok tt, b) /\
  Backend.stop o b = (Ok tt, b).
Proof.
  intros H. repeat split;
    [ apply pause_without_engine
    | apply resume_without_engine
    | apply stop_without_engine ]; exact H.
Qed.

Lemma C6_no_engine_is_noop_witness :
  Backend.has_engine Backend.MPVBackend_init = false /\
  (Backend.pause failing Backend.MPVBackend_init = (Ok tt, Backend.MPVBackend_init) /\
   Backend.resume failing Backend.MPVBackend_init = (Ok tt, Backend.MPVBackend_init) /\
   Backend.stop failing Backend.MPVBackend_init = (Ok tt, Backend.MPVBackend_init)).
Proof.
  split; [reflexivity | apply (C6_no_engine_is_noop failing); reflexivity].
Defined.

(** ** C3: stop *)





(** ** C9: play *)

(** C9: [play()] while the observed state is playing or idle returns with
    the whole player, engine included, exactly as before: no request is
    sent and the snapshot is unchanged.  A request is sent only when the
    observed state is paused, and then it is the resume request, which
    itself writes no field of the store. *)
Theorem C9_play_only_resumes (o : Oracle) (p : Player.PipePlayPlayer) :
  (Player.state p = PLAYING \/ Player.state p = IDLE ->
     Player.async_media_play o p = (Ok tt, p)) /\
  (Backend.engine_log (Player._backend (after (Player.async_media_play o p)))
     <> Backend.engine_log (Player._backend p) ->
     Player.state p = PAUSED) /\
  (Player.state p = PAUSED ->
     Backend.has_engine (Player._backend p) = true ->
     Backend.engine_log (Player._backend (after (Player.async_media_play o p)))
       = (Backend.engine_log (Player._backend p) ++ [ESetPause false])%list /\
     Backend.snapshot (Player._backend (after (Player.async_media_play o p)))
       = Backend.snapshot (Player._backend p)).
Proof.
  unfold Player.async_media_play, bind, gets.
  split; [| split].
  - intros [H | H]; rewrite H; reflexivity.
  - destruct (Player.state p); simpl; try congruence.
  - intros Hs Heng. rewrite Hs. simpl.
    rewrite on_backend_run. unfold after. simpl.
    destruct p as [b t ar al ct du po]. simpl in *.
    split_engine b; simpl in *; [| discriminate].
    unfold Backend.resume. unfold_m. simpl.
    destruct (o (ESetPause false)); split; reflexivity.
Qed.

Lemma C9_play_only_resumes_witness :
  Player.state player_with_song = PLAYING /\
  Player.async_media_play obliging player_with_song = (Ok tt, player_with_song) /\
  Player.state Player.PipePlayPlayer_init = IDLE /\
  Player.async_media_play obliging Player.PipePlayPlayer_init
    = (Ok tt, Player.PipePlayPlayer_init) /\
  Player.state paused_player = PAUSED /\
  Backend.engine_log
    (Player._backend (after (Player.async_media_play obliging paused_player)))
    = (Backend.engine_log (Player._backend paused_player) ++ [ESetPause false])%list.
Proof.
  split; [reflexivity |].
  split.
  { apply (proj1 (C9_play_only_resumes obliging player_with_song)).
    left. reflexivity. }
  split; [reflexivity |].
  split.
  { apply (proj1 (C9_play_only_resumes obliging Player.PipePlayPlayer_init)).
    right. reflexivity. }
  split; [reflexivity |].
  apply (proj2 (proj2 (C9_play_only_resumes obliging paused_player)));
    reflexivity.
Defined.

(** ** C10: seek *)

Ltac unfold_backend :=
  unfold perform, Backend.initialize, Backend.set_state_callback,
         Backend.cleanup, Backend.play_media, Backend.pause, Backend.resume,
         Backend.stop, Backend.set_volume, Backend.set_mute, Backend.seek;
  unfold_m.

Ltac ask_oracle :=
  repeat match goal with
         | |- context [match ?o ?c with Returns => _ | Raises => _ end] =>
             destruct (o c); simpl
         | |- context [match ?x with Returns => _ | Raises => _ end] =>
             destruct x; simpl
         | |- context [if otruthy ?m then _ else _] =>
             destruct (otruthy m); simpl
         end.

(** A method writes the position only in [stop], and then to 0. *)
Lemma perform_position (c : Command) (o : Oracle) (b : Backend.MPVBackend) :
  Backend._position (after (perform c o b)) = Backend._position b \/
  (c = CStop /\ Backend._position (after (perform c o b)) = f0).
Proof.
  split_engine b; destruct c; unfold_backend; simpl; ask_oracle; auto.
Qed.

(** C10, as stated, fails in its middle clause: with the song at second
    30, [stop] rewrites the stored position to 0, and so does the end of
    stream, without any [PositionChanged] callback. *)
Lemma C10_counterexample :
  let b := run [Deliver (PositionChanged (Some thirty))] playing_song in
  Reachable b /\
  Backend.media_position b = thirty /\
  Backend.media_position (step (Do CStop obliging) b) = f0 /\
  Backend.media_position (step (Deliver (EndOfStream (Some true))) b) = f0 /\
  thirty <> f0 /\
  (forall v, Do CStop obliging <> Deliver (PositionChanged v)) /\
  (forall v, Deliver (EndOfStream (Some true)) <> Deliver (PositionChanged v)).
Proof.
  cbv zeta. split.
  - exists [Do (CInitialize Returns) obliging;
            Do (CPlayMedia song (Some "music")) obliging;
            Deliver (PositionChanged (Some thirty))].
    reflexivity.
  - repeat split; discriminate.
Qed.

(** C10, amended: [seek(position)] returns normally and leaves every field
    of the playback state store as it was; without an engine instance or
    without current media it sends no request at all.  The position field
    takes a reported value only in the [PositionChanged] callback, never in
    [seek]; the only other writes to it are the clearing to 0 by [stop] and
    by end of stream. *)
Theorem C10_seek_frame (o : Oracle) (position : pyfloat) (b : Backend.MPVBackend) :
  result (Backend.seek o position b) = Ok tt /\
  Backend.snapshot (after (Backend.seek o position b)) = Backend.snapshot b /\
  (Backend.has_engine b = false \/ Backend.current_media b = None ->
     Backend.seek o position b = (Ok tt, b)) /\
  (forall a : Action,
     Backend.media_position (step a b) <> Backend.media_position b ->
     (exists v, a = Deliver (PositionChanged (Some v)) /\
                Backend.media_position (step a b) = v) \/
     (Backend.media_position (step a b) = f0 /\
      (a = Deliver (EndOfStream (Some true)) \/ exists o', a = Do CStop o'))).
Proof.
  split; [| split; [| split]].
  - split_engine b; unfold_backend; simpl; ask_oracle; reflexivity.
  - split_engine b; unfold_backend; simpl; ask_oracle; reflexivity.
  - intros [H | H].
    + unfold Backend.seek. unfold_m. rewrite H. reflexivity.
    + unfold Backend.seek, Backend.current_media in *. unfold_m. rewrite H.
      rewrite andb_false_r. reflexivity.
  - intros [c o' | e] Hne; unfold Backend.media_position in *; simpl in *.
    + destruct (perform_position c o' b) as [H | [-> H]]; [contradiction |].
      right. split; [exact H | right; eauto].
    + destruct e as [[v|] | [v|] | v | [[|]|]]; simpl in *;
        try contradiction.
      * left. eauto.
      * unfold deliver, Backend._on_pause_change in Hne. simpl in Hne.
        destruct v as [[|]|]; simpl in Hne;
          try destruct (otruthy (Backend._current_media b));
          contradiction.
      * right. split; [reflexivity | left; reflexivity].
Qed.

Lemma C10_seek_frame_witness :
  Backend.current_media Backend.MPVBackend_init = None /\
  Backend.seek obliging half Backend.MPVBackend_init
    = (Ok tt, Backend.MPVBackend_init) /\
  Backend.snapshot (after (Backend.seek failing half playing_song))
    = Backend.snapshot playing_song /\
  Backend.media_position (step (Deliver (PositionChanged (Some half))) playing_song)
    = half.
Proof.
  split; [reflexivity |].
  split.
  { apply (proj1 (proj2 (proj2
      (C10_seek_frame obliging half Backend.MPVBackend_init)))).
    right. reflexivity. }
  split.
  { apply (proj1 (proj2 (C10_seek_frame failing half playing_song))). }
  assert (Hne : Backend.media_position
                  (step (Deliver (PositionChanged (Some half))) playing_song)
                <> Backend.media_position playing_song)
    by (vm_compute; discriminate).
  destruct (proj2 (proj2 (proj2 (C10_seek_frame obliging half playing_song)))
              (Deliver (PositionChanged (Some half))) Hne)
    as [[v [Hv Hp]] | [H0 _]].
  - injection Hv as <-. exact Hp.
  - vm_compute in H0. discriminate H0.
Defined.

(** ** C1: the volume command *)

(** The backend's [set_volume] never raises; it stores the argument as it
    is, unless the engine raised on the volume write, in which case the
    stored volume stays. *)
Lemma set_volume_effect (o : Oracle) (v : pyfloat) (b : Backend.MPVBackend) :
  result (Backend.set_volume o v b) = Ok tt /\
  Backend.volume_level (after (Backend.set_volume o v b)) =
    (if Backend.has_engine b
     then match o (ESetVolume (fmul100 v)) with
          | Returns => v
          | Raises => Backend.volume_level b
          end
     else v).
Proof.
  split_engine b; unfold_backend; simpl; ask_oracle; split; reflexivity.
Qed.

Lemma async_set_volume_level_run (o : Oracle) (v : pyfloat)
    (p : Player.PipePlayPlayer) :
  Player.async_set_volume_level o v p =
  (if Player.hass p then Ok tt else Raised RuntimeError,
   Player.with_backend (after (Backend.set_volume o v (Player._backend p))) p).
Proof.
  unfold Player.async_set_volume_level. rewrite then_schedule_run.
  pose proof (proj1 (set_volume_effect o v (Player._backend p))) as H.
  unfold result in H. rewrite H. reflexivity.
Qed.





(** ** C7: a failing play_media *)

(** The backend's [play_media] raises exactly when there is no engine
    instance or the engine raises on the play request; the store is then
    idle without media, otherwise playing the locator. *)
Lemma play_media_effect (o : Oracle) (url : string) (mt : option string)
    (b : Backend.MPVBackend) :
  let r := Backend.play_media o url mt b in
  (Backend.has_engine b = true /\ o (EPlay url) = Returns /\
   result r = Ok tt /\
   Backend.state (after r) = "playing" /\
   Backend.current_media (after r) = Some url) \/
  ((Backend.has_engine b = false \/ o (EPlay url) = Raises) /\
   (exists e, result r = Raised e) /\
   Backend.state (after r) = "idle" /\
   Backend.current_media (after r) = None).
Proof.
  cbv zeta. split_engine b; unfold_backend; simpl.
  - destruct (o (EPlay url)) eqn:E; simpl.
    + left. repeat split.
    + right. repeat split; eauto.
  - right. repeat split; eauto.
Qed.

(** [play_media] writes neither the position nor the volume. *)
Lemma play_media_frame (o : Oracle) (url : string) (mt : option string)
    (b : Backend.MPVBackend) :
  Backend.media_position (after (Backend.play_media o url mt b))
    = Backend.media_position b /\
  Backend.volume_level (after (Backend.play_media o url mt b))
    = Backend.volume_level b.
Proof.
  split_engine b; unfold_backend; simpl; ask_oracle; split; reflexivity.
Qed.

Lemma async_play_media_run (o : Oracle) (probe : Probe) (mt id : string)
    (p : Player.PipePlayPlayer) :
  result (Player.async_play_media o (Found probe) mt id p)
    = match result (Backend.play_media o id (Some mt) (Player._backend p)) with
      | Ok _ => if Player.hass p then Ok tt else Raised RuntimeError
      | Raised e => Raised e
      end /\
  Player._backend (after (Player.async_play_media o (Found probe) mt id p))
    = after (Backend.play_media o id (Some mt) (Player._backend p)).
Proof.
  unfold Player.async_play_media.
  unfold result, after, try_except, bind, modify, raise.
  destruct probe as [t ar al | name]; simpl;
    destruct (String.eqb mt Player.MUSIC); simpl;
    try destruct (String.eqb mt Player.PODCAST); simpl;
    rewrite on_backend_run; simpl;
    destruct (Backend.play_media o id (Some mt) (Player._backend p))
      as [[[]|e] b1]; simpl; try rewrite schedule_run; simpl;
    destruct (Player.hass p); split; reflexivity.
Qed.

(** A look-up that raises ends [async_play_media] before any write. *)
Lemma async_play_media_lookup_raises (o : Oracle) (e : exn) (mt id : string)
    (p : Player.PipePlayPlayer) :
  Player.async_play_media o (LookupRaises e) mt id p = (Raised e, p).
Proof. reflexivity. Qed.

(** C7: if the backend's [play_media] raises, for any locator and from any
    prior store, then [async_play_media] raises the same exception to its
    caller, and the store it leaves is idle with [current_media] [None];
    the HTTP handler turns the exception into a failure response with
    status 500. *)
Theorem C7_failed_play_media (o : Oracle) (probe : Probe) (mt id : string)
    (p : Player.PipePlayPlayer) (e : exn) :
  result (Backend.play_media o id (Some mt) (Player._backend p)) = Raised e ->
  let r := Player.async_play_media o (Found probe) mt id p in
  result r = Raised e /\
  Backend.state (Player._backend (after r)) = "idle" /\
  Backend.current_media (Player._backend (after r)) = None /\
  Player.state (after r) = IDLE /\
  (struthy id = true ->
   fst (Api._handle_command o (Found probe)
          (Api.Object (Api.play_media_request id)) (Some p))
     = Api.failed 500 (StrOf e)).
Proof.
  intros Hraise. cbv zeta.
  destruct (async_play_media_run o probe mt id p) as [Hres Hback].
  destruct (play_media_effect o id (Some mt) (Player._backend p))
    as [(_ & _ & Hok & _) | (_ & _ & Hs & Hm)].
  { rewrite Hok in Hraise. discriminate. }
  split; [rewrite Hres, Hraise; reflexivity |].
  split; [rewrite Hback; exact Hs |].
  split; [rewrite Hback; exact Hm |].
  split.
  - unfold Player.state. rewrite Hback, Hs. reflexivity.
  - intros Hid.
    unfold Api._handle_command, Api.dispatch, Api.play_media_request. simpl.
    rewrite Hid. simpl. unfold bind.
    destruct (async_play_media_run o probe "music" id p) as [Hres' _].
    assert (Hsame : result (Backend.play_media o id (Some "music") (Player._backend p))
                    = Raised e).
    { revert Hraise. clear.
      destruct p as [b ? ? ? ? ? ? ?]; simpl.
      split_engine b; unfold_backend; simpl; ask_oracle; auto. }
    rewrite Hsame in Hres'. unfold result in Hres'.
    destruct (Player.async_play_media o (Found probe) "music" id p) as [r' p'].
    simpl in Hres'. rewrite Hres'. reflexivity.
Qed.

Lemma C7_failed_play_media_witness :
  let r := Player.async_play_media failing (Found (NotAFile "missing.mp3")) "music"
             "/nowhere/missing.mp3" player_with_song in
  Player.state player_with_song = PLAYING /\
  result r = Raised (EngineError (EPlay "/nowhere/missing.mp3")) /\
  Backend.state (Player._backend (after r)) = "idle" /\
  Backend.current_media (Player._backend (after r)) = None.
Proof.
  cbv zeta. split; [reflexivity |].
  destruct (C7_failed_play_media failing (NotAFile "missing.mp3") "music"
              "/nowhere/missing.mp3" player_with_song
              (EngineError (EPlay "/nowhere/missing.mp3")) eq_refl)
    as (H1 & H2 & H3 & _).
  repeat split; assumption.
Defined.

(** ** C8: a successful play_media *)

(** C8, as stated, fails: the store below is reachable and idle, with the
    position still at 30 from the song the refused [play_media] replaced;
    the next [play_media] succeeds and leaves the position at 30, which the
    entity projects as 30, not as cleared. *)
Lemma C8_counterexample :
  let r := Backend.play_media obliging song (Some "music") idle_after_refusal in
  Reachable idle_after_refusal /\
  Backend.state idle_after_refusal = "idle" /\
  Backend.current_media idle_after_refusal = None /\
  result r = Ok tt /\
  Backend.state (after r) = "playing" /\
  Backend.media_position (after r) = thirty /\
  thirty <> f0 /\
  Player.media_position (Player.with_backend (after r) Player.PipePlayPlayer_init)
    = Ok (Some 30%Z).
Proof.
  cbv zeta. split.
  - exists [Do (CInitialize Returns) obliging;
            Do (CPlayMedia song (Some "music")) obliging;
            Deliver (PositionChanged (Some thirty));
            Do (CPlayMedia "/tmp/broken.mp3" (Some "music")) failing].
    reflexivity.
  - repeat split. discriminate.
Qed.

(** C8, amended: for every locator, when [play_media] succeeds from the
    idle state (or from any other), the resulting store has state playing
    and [current_media] set to the locator; the command does not write the
    position field, which keeps its prior value, so it is 0 exactly when it
    was 0 in the prior store. *)
Theorem C8_play_media_succeeds (o : Oracle) (url : string) (mt : option string)
    (b : Backend.MPVBackend) :
  result (Backend.play_media o url mt b) = Ok tt ->
  let b' := after (Backend.play_media o url mt b) in
  Backend.state b' = "playing" /\
  Backend.current_media b' = Some url /\
  Backend.media_position b' = Backend.media_position b /\
  (Backend.media_position b = f0 -> Backend.media_position b' = f0).
Proof.
  intros Hok. cbv zeta.
  destruct (play_media_effect o url mt b)
    as [(_ & _ & _ & Hs & Hm) | (_ & [e He] & _)].
  - destruct (play_media_frame o url mt b) as [Hp _].
    repeat split; try assumption. intros H0. rewrite Hp. exact H0.
  - rewrite He in Hok. discriminate.
Qed.

Lemma C8_play_media_succeeds_witness :
  let b' := after (Backend.play_media obliging song (Some "music") started) in
  Backend.state started = "idle" /\
  Backend.state b' = "playing" /\
  Backend.current_media b' = Some song /\
  Backend.media_position b' = f0.
Proof.
  cbv zeta. split; [reflexivity |].
  destruct (C8_play_media_succeeds obliging song (Some "music") started eq_refl)
    as (H1 & H2 & _ & H4).
  split; [exact H1 |]. split; [exact H2 |]. apply H4. reflexivity.
Defined.

(** ** Reachable stores *)

Lemma perform_well_shaped (c : Command) (o : Oracle) (b : Backend.MPVBackend) :
  well_shaped b -> well_shaped (after (perform c o b)).
Proof.
  unfold well_shaped.
  split_engine b; destruct c; unfold_backend; simpl; ask_oracle;
    intros [Hs Hm]; (split; [auto | try assumption; try reflexivity;
                                     try (intros; discriminate)]).
Qed.

Lemma deliver_well_shaped (e : Event) (b : Backend.MPVBackend) :
  well_shaped b -> well_shaped (deliver e b).
Proof.
  unfold well_shaped. intros [Hs Hm].
  destruct e as [[v|] | [v|] | [[|]|] | [[|]|]]; simpl;
    try (split; assumption);
    try (split; [auto | intros; discriminate || reflexivity]).
  - unfold deliver, Backend._on_pause_change. simpl.
    destruct (otruthy (Backend._current_media b)) eqn:E; simpl.
    + split; [auto | intros; discriminate].
    + split; assumption.
  - unfold deliver, Backend._on_pause_change. simpl.
    destruct (otruthy (Backend._current_media b)) eqn:E; simpl.
    + split; [auto | intros; discriminate].
    + split; assumption.
Qed.

Lemma step_well_shaped (a : Action) (b : Backend.MPVBackend) :
  well_shaped b -> well_shaped (step a b).
Proof.
  destruct a; simpl;
    [apply perform_well_shaped | apply deliver_well_shaped].
Qed.

Lemma run_well_shaped (h : list Action) (b : Backend.MPVBackend) :
  well_shaped b -> well_shaped (run h b).
Proof.
  revert b. induction h as [| a h IH]; intros b Hb; simpl.
  - exact Hb.
  - apply IH. apply step_well_shaped. exact Hb.
Qed.

Lemma reachable_well_shaped (b : Backend.MPVBackend) :
  Reachable b -> well_shaped b.
Proof.
  intros [h ->]. apply run_well_shaped.
  split; [left; reflexivity | reflexivity].
Qed.

(** ** C2: media reference and state *)

Lemma perform_coherent (c : Command) (o : Oracle) (b : Backend.MPVBackend) :
  coherent b -> coherent (after (perform c o b)).
Proof.
  unfold coherent.
  split_engine b; destruct c; unfold_backend; simpl; ask_oracle;
    intros H; try exact H;
    try (left; split; reflexivity);
    try (right; split; [left; reflexivity | discriminate]).
Qed.

Lemma deliver_coherent (e : Event) (b : Backend.MPVBackend) :
  ~ pause_while_idle (Deliver e) b -> coherent b -> coherent (deliver e b).
Proof.
  unfold coherent. intros Hn H.
  destruct e as [[v|] | [v|] | [[|]|] | [[|]|]]; simpl; try exact H;
    try (left; split; reflexivity).
  - destruct H as [[Hs _] | [_ Hm]].
    + exfalso. apply Hn. split; [reflexivity | exact Hs].
    + right. split; [right; reflexivity | exact Hm].
  - unfold deliver, Backend._on_pause_change. simpl.
    destruct (otruthy (Backend._current_media b)) eqn:E; simpl; [| exact H].
    right. split; [left; reflexivity |].
    intros Hm. rewrite Hm in E. discriminate.
  - unfold deliver, Backend._on_pause_change. simpl.
    destruct (otruthy (Backend._current_media b)) eqn:E; simpl; [| exact H].
    right. split; [left; reflexivity |].
    intros Hm. rewrite Hm in E. discriminate.
Qed.

Lemma run_coherent (h : list Action) (b : Backend.MPVBackend) :
  spared b h -> coherent b -> coherent (run h b).
Proof.
  intros Hsp. induction Hsp as [b | b a h Hn _ IH]; intros Hb; simpl.
  - exact Hb.
  - apply IH. destruct a as [c o | e]; simpl.
    + apply perform_coherent. exact Hb.
    + apply deliver_coherent; assumption.
Qed.

(** Apart from a [PauseChanged(true)] arriving while idle, every method
    and callback keeps the relation between media reference and state. *)
Lemma spared_media_iff_active (h : list Action) :
  spared Backend.MPVBackend_init h ->
  media_iff_active (run h Backend.MPVBackend_init).
Proof.
  intros Hsp.
  assert (H : coherent (run h Backend.MPVBackend_init)).
  { apply run_coherent; [exact Hsp |]. left. split; reflexivity. }
  unfold media_iff_active, Backend.current_media, Backend.state.
  destruct H as [[Hs Hm] | [Hs Hm]].
  - rewrite Hs, Hm. split; [intros F; contradiction |].
    intros [F | [F | F]]; discriminate F.
  - split; [intros _ | intros _; exact Hm].
    destruct Hs as [Hs | Hs]; auto.
Qed.

(** C2 on the code: after [initialize], a [pause] command sent while idle
    and the engine's [PauseChanged(true)] notification, the store is paused
    with no media reference, so the invariant does not hold in this
    reachable store. *)
Theorem C2_pause_while_idle :
  Reachable paused_without_media /\
  Backend.state started = "idle" /\
  Backend.engine_log (step (Do CPause obliging) started)
    = (Backend.engine_log started ++ [ESetPause true])%list /\
  Backend.state paused_without_media = "paused" /\
  Backend.current_media paused_without_media = None /\
  ~ media_iff_active paused_without_media.
Proof.
  split.
  - exists [Do (CInitialize Returns) obliging; Do CPause obliging;
            Deliver (PauseChanged (Some true))].
    reflexivity.
  - repeat split.
    intros [_ H]. apply H; [right; left; reflexivity | reflexivity].
Qed.

(** ** C4: the range of the stored volume *)

(** C4 on the code: neither the backend's [set_volume] nor the entity's
    [async_set_volume_level] checks its argument.  Called with 1.5, on a
    backend with or without an engine instance, [set_volume] returns and
    the stored volume is 1.5, outside the range, and the engine is asked
    for 150; the store with volume 1.5 is reachable.  The entity's method
    stores the same value, whether or not the entity has been added to
    Home Assistant.  The HTTP handler refuses the same value before it
    reaches either method. *)
Theorem C4_set_volume_unchecked :
  let v := Fin (3 # 2) in
  let b := run [Do (CSetVolume v) obliging] Backend.MPVBackend_init in
  ~ InUnit v /\
  Backend.set_volume obliging v Backend.MPVBackend_init = (Ok tt, b) /\
  Reachable b /\
  Backend.volume_level b = v /\
  ~ InUnit (Backend.volume_level b) /\
  result (Backend.set_volume obliging v started) = Ok tt /\
  Backend.volume_level (after (Backend.set_volume obliging v started)) = v /\
  Backend.engine_log (after (Backend.set_volume obliging v started))
    = (Backend.engine_log started ++ [ESetVolume (Fin ((3 # 2) * 100))])%list /\
  Player.volume_level
    (after (Player.async_set_volume_level obliging v added_player)) = v /\
  result (Player.async_set_volume_level obliging v added_player) = Ok tt /\
  Player.volume_level
    (after (Player.async_set_volume_level obliging v Player.PipePlayPlayer_init))
    = v /\
  Api._handle_command obliging (Found (NotAFile ""))
    (Api.Object (Api.volume_request (JNum v))) (Some added_player)
  = (Api.failed 400 (Text "level must be between 0 and 1"), Some added_player).
Proof.
  cbv zeta.
  assert (Hout : ~ InUnit (Fin (3 # 2)))
    by (apply in_unit_range_false; reflexivity).
  split; [exact Hout |].
  split; [reflexivity |].
  split; [eexists; reflexivity |].
  split; [reflexivity |].
  split; [exact Hout |].
  repeat split.
Qed.

(** ** C5: transitions of the state field *)

Lemma perform_state (c : Command) (o : Oracle) (b : Backend.MPVBackend) :
  Backend._state (after (perform c o b)) = Backend._state b \/
  (exists url mt, c = CPlayMedia url mt /\
     ((result (Backend.play_media o url mt b) = Ok tt /\
       Backend._state (after (perform c o b)) = "playing") \/
      ((exists e, result (Backend.play_media o url mt b) = Raised e) /\
       Backend._state (after (perform c o b)) = "idle"))) \/
  (c = CStop /\ Backend._state (after (perform c o b)) = "idle").
Proof.
  destruct c; try (left; split_engine b; unfold_backend; simpl; ask_oracle;
                   reflexivity).
  - right; left. exists media_url, media_type. split; [reflexivity |].
    simpl.
    destruct (play_media_effect o media_url media_type b)
      as [(_ & _ & Hok & Hs & _) | (_ & He & Hs & _)]; auto.
  - split_engine b; unfold_backend; simpl; ask_oracle; auto.
Qed.

(** C5, as stated, fails: from the reachable paused store a successful
    [play_media] moves the state to playing, and from the playing store a
    refused [play_media] moves it to idle; neither transition is in the
    table. *)
Lemma C5_counterexample :
  let paused := run [Deliver (PauseChanged (Some true))] playing_song in
  let next := Do (CPlayMedia "/tmp/next.mp3" (Some "music")) obliging in
  let broken := Do (CPlayMedia "/tmp/broken.mp3" (Some "music")) failing in
  Reachable paused /\
  Backend.state paused = "paused" /\
  Backend.state (step next paused) = "playing" /\
  cause_of next paused = Some PlayMediaSucceeds /\
  ~ SpecTable "paused" PlayMediaSucceeds "playing" /\
  Reachable playing_song /\
  Backend.state playing_song = "playing" /\
  Backend.state (step broken playing_song) = "idle" /\
  cause_of broken playing_song = Some PlayMediaFails /\
  (forall s s', ~ SpecTable s PlayMediaFails s').
Proof.
  cbv zeta.
  split.
  { exists [Do (CInitialize Returns) obliging;
            Do (CPlayMedia song (Some "music")) obliging;
            Deliver (PauseChanged (Some true))].
    reflexivity. }
  split; [reflexivity |]. split; [reflexivity |]. split; [reflexivity |].
  split; [intros H; inversion H |].
  split.
  { exists [Do (CInitialize Returns) obliging;
            Do (CPlayMedia song (Some "music")) obliging].
    reflexivity. }
  split; [reflexivity |]. split; [reflexivity |]. split; [reflexivity |].
  intros s s' H. inversion H.
Qed.

(** C5, amended: along every history, position and duration notifications
    never change the state field, and any other command or notification,
    except a [PauseChanged(true)] that arrives while the store is idle,
    either leaves the state field as it is or moves it by one of: to
    playing on a successful [play_media] from any state; to idle on a
    [play_media] the engine refuses, from any state; playing to paused on
    [PauseChanged(true)]; paused to playing on [PauseChanged(false)];
    playing or paused to idle on [EndOfStream(true)] or on [stop]. *)
Theorem C5_state_transitions (h : list Action) (a : Action) :
  let b := run h Backend.MPVBackend_init in
  (forall v, Backend.state (step (Deliver (PositionChanged v)) b) = Backend.state b /\
             Backend.state (step (Deliver (DurationChanged v)) b) = Backend.state b) /\
  (~ pause_while_idle a b ->
   Backend.state (step a b) = Backend.state b \/
   exists c, cause_of a b = Some c /\
             CodeTable (Backend.state b) c (Backend.state (step a b))).
Proof.
  cbv zeta.
  assert (Hw : well_shaped (run h Backend.MPVBackend_init)).
  { apply reachable_well_shaped. exists h. reflexivity. }
  set (b := run h Backend.MPVBackend_init) in *.
  destruct Hw as [Hs Hm]. unfold Backend.state.
  split.
  { intros [v|]; split; reflexivity. }
  intros Hstray.
  destruct a as [c o | e].
  - simpl.
    destruct (perform_state c o b)
      as [H | [(url & mt & -> & [[Hok H] | [[e He] H]]) | [-> H]]].
    + left. exact H.
    + right. exists PlayMediaSucceeds. simpl in *.
      rewrite H. unfold result in Hok |- *. rewrite Hok.
      split; [reflexivity | constructor].
    + right. exists PlayMediaFails. simpl in *.
      rewrite H. unfold result in He |- *. rewrite He.
      split; [reflexivity | constructor].
    + simpl in *. rewrite H.
      destruct Hs as [Hs | [Hs | Hs]]; rewrite Hs.
      * left. reflexivity.
      * right. exists StopCommand. split; [reflexivity | constructor].
      * right. exists StopCommand. split; [reflexivity | constructor].
  - destruct e as [[v|] | [v|] | v | [[|]|]];
      try (left; reflexivity).
    + destruct v as [[|]|].
      * simpl.
        destruct Hs as [Hs | [Hs | Hs]].
        -- exfalso. apply Hstray. split; [reflexivity | exact Hs].
        -- right. exists PauseOn. rewrite Hs.
           split; [reflexivity | constructor].
        -- left. symmetry. exact Hs.
      * unfold step, deliver, Backend._on_pause_change. simpl.
        destruct (otruthy (Backend._current_media b)) eqn:E; simpl;
          [| left; reflexivity].
        destruct Hs as [Hs | [Hs | Hs]].
        -- rewrite (Hm Hs) in E. discriminate.
        -- left. symmetry. exact Hs.
        -- right. exists PauseOff. rewrite Hs.
           split; [reflexivity | constructor].
      * unfold step, deliver, Backend._on_pause_change. simpl.
        destruct (otruthy (Backend._current_media b)) eqn:E; simpl;
          [| left; reflexivity].
        destruct Hs as [Hs | [Hs | Hs]].
        -- rewrite (Hm Hs) in E. discriminate.
        -- left. symmetry. exact Hs.
        -- right. exists PauseOff. rewrite Hs.
           split; [reflexivity | constructor].
    + simpl.
      destruct Hs as [Hs | [Hs | Hs]]; rewrite Hs.
      * left. reflexivity.
      * right. exists EndReached. split; [reflexivity | constructor].
      * right. exists EndReached. split; [reflexivity | constructor].
Qed.

Lemma C5_state_transitions_witness :
  let h := [Do (CInitialize Returns) obliging;
            Do (CPlayMedia song (Some "music")) obliging] in
  let a := Deliver (PauseChanged (Some true)) in
  Backend.state (run h Backend.MPVBackend_init) = "playing" /\
  ~ pause_while_idle a (run h Backend.MPVBackend_init) /\
  Backend.state (step a (run h Backend.MPVBackend_init)) = "paused" /\
  (Backend.state (step a (run h Backend.MPVBackend_init))
     = Backend.state (run h Backend.MPVBackend_init) \/
   exists c, cause_of a (run h Backend.MPVBackend_init) = Some c /\
             CodeTable (Backend.state (run h Backend.MPVBackend_init)) c
               (Backend.state (step a (run h Backend.MPVBackend_init)))).
Proof.
  cbv zeta.
  assert (Hn : ~ pause_while_idle (Deliver (PauseChanged (Some true)))
                 (run [Do (CInitialize Returns) obliging;
                       Do (CPlayMedia song (Some "music")) obliging]
                      Backend.MPVBackend_init)).
  { intros [_ H]. discriminate H. }
  split; [reflexivity |]. split; [exact Hn |]. split; [reflexivity |].
  exact (proj2 (C5_state_transitions
                  [Do (CInitialize Returns) obliging;
                   Do (CPlayMedia song (Some "music")) obliging]
                  (Deliver (PauseChanged (Some true)))) Hn).
Defined.

(** * Further properties of the backend *)

(** [set_mute] never raises.  It stores the flag as given, unless the
    engine raised on the mute write, in which case the stored flag stays;
    no other field of the store changes. *)
Theorem set_mute_effect (o : Oracle) (m : bool) (b : Backend.MPVBackend) :
  let r := Backend.set_mute o m b in
  result r = Ok tt /\
  Backend.is_muted (after r) =
    (if Backend.has_engine b
     then match o (ESetMute m) with
          | Returns => m
          | Raises => Backend.is_muted b
          end
     else m) /\
  Backend.state (after r) = Backend.state b /\
  Backend.current_media (after r) = Backend.current_media b /\
  Backend.media_position (after r) = Backend.media_position b /\
  Backend.media_duration (after r) = Backend.media_duration b /\
  Backend.volume_level (after r) = Backend.volume_level b.
Proof.
  cbv zeta. split_engine b; unfold_backend; simpl; ask_oracle;
    repeat split.
Qed.

(** [cleanup] never raises and never writes the playback store.  Without
    an engine it does nothing.  When the engine's [terminate] returns, the
    instance is released and every later [cleanup] does nothing; when
    [terminate] raises, the error is swallowed and the instance stays. *)
Theorem cleanup_releases_once (o : Oracle) (b : Backend.MPVBackend) :
  let b' := after (Backend.cleanup o b) in
  result (Backend.cleanup o b) = Ok tt /\
  Backend.snapshot b' = Backend.snapshot b /\
  (Backend.has_engine b = false -> b' = b) /\
  (Backend.has_engine b = true -> o ETerminate = Returns ->
     Backend.has_engine b' = false /\
     forall o', Backend.cleanup o' b' = (Ok tt, b')) /\
  (Backend.has_engine b = true -> o ETerminate = Raises ->
     Backend.has_engine b' = true /\
     Backend.engine_log b' = (Backend.engine_log b ++ [ETerminate])%list).
Proof.
  cbv zeta. split_engine b; unfold_backend; simpl.
  - destruct (o ETerminate) eqn:E; simpl; repeat split;
      try discriminate; try (intros; discriminate).
  - repeat split; try discriminate; intros; discriminate.
Qed.

Lemma cleanup_releases_once_witness :
  Backend.has_engine playing_song = true /\
  Backend.has_engine (after (Backend.cleanup obliging playing_song)) = false /\
  Backend.cleanup failing (after (Backend.cleanup obliging playing_song))
    = (Ok tt, after (Backend.cleanup obliging playing_song)) /\
  Backend.has_engine (after (Backend.cleanup failing playing_song)) = true /\
  after (Backend.cleanup obliging Backend.MPVBackend_init) = Backend.MPVBackend_init.
Proof.
  pose proof (cleanup_releases_once obliging playing_song) as H1.
  pose proof (cleanup_releases_once failing playing_song) as H2.
  pose proof (cleanup_releases_once obliging Backend.MPVBackend_init) as H3.
  cbv zeta in H1, H2, H3.
  destruct H1 as (_ & _ & _ & H1 & _).
  destruct H2 as (_ & _ & _ & _ & H2).
  destruct H3 as (_ & _ & H3 & _).
  destruct (H1 eq_refl eq_refl) as [Ha Hb].
  destruct (H2 eq_refl eq_refl) as [Hc _].
  split; [reflexivity |]. split; [exact Ha |]. split; [apply Hb |].
  split; [exact Hc |]. apply H3. reflexivity.
Defined.

(** [initialize]: when the constructor raises, the error reaches the
    caller and the backend is as before.  When it returns, a fresh
    instance is installed even if a later observer registration raises;
    with all registrations accepted the instance has received exactly the
    four observers, in order.  The playback store is never written. *)
Theorem initialize_installs_engine (ctor : outcome) (o : Oracle)
    (b : Backend.MPVBackend) :
  Backend.snapshot (after (Backend.initialize ctor o b)) = Backend.snapshot b /\
  (ctor = Raises ->
     Backend.initialize ctor o b = (Raised EngineInitError, b)) /\
  (ctor = Returns ->
     Backend.has_engine (after (Backend.initialize ctor o b)) = true /\
     exists n, Backend.engine_log (after (Backend.initialize ctor o b))
               = firstn n observers) /\
  (ctor = Returns -> (forall property, o (EObserve property) = Returns) ->
     result (Backend.initialize ctor o b) = Ok tt /\
     Backend.engine_log (after (Backend.initialize ctor o b)) = observers) /\
  (ctor = Returns -> forall property, In (EObserve property) observers ->
     o (EObserve property) = Raises ->
     exists e, result (Backend.initialize ctor o b) = Raised e).
Proof.
  split; [| split; [| split; [| split]]].
  - destruct ctor; split_engine b; unfold_backend; simpl; ask_oracle;
      reflexivity.
  - intros ->. split_engine b; reflexivity.
  - intros ->. unfold_backend. simpl.
    destruct (o (EObserve "time-pos")); simpl;
      [| split; [reflexivity | exists 1%nat; reflexivity]].
    destruct (o (EObserve "duration")); simpl;
      [| split; [reflexivity | exists 2%nat; reflexivity]].
    destruct (o (EObserve "pause")); simpl;
      [| split; [reflexivity | exists 3%nat; reflexivity]].
    destruct (o (EObserve "eof-reached")); simpl;
      split; reflexivity || (exists 4%nat; reflexivity).
  - intros -> Hall. unfold_backend. simpl.
    rewrite !Hall. simpl. split; reflexivity.
  - intros -> property Hin Hraise. unfold_backend. simpl.
    destruct (o (EObserve "time-pos")) eqn:E1; simpl; [| eauto].
    destruct (o (EObserve "duration")) eqn:E2; simpl; [| eauto].
    destruct (o (EObserve "pause")) eqn:E3; simpl; [| eauto].
    destruct (o (EObserve "eof-reached")) eqn:E4; simpl; [| eauto].
    exfalso. simpl in Hin.
    destruct Hin as [H | [H | [H | [H | []]]]]; injection H as <-; congruence.
Qed.

Lemma initialize_installs_engine_witness :
  Backend.initialize Raises obliging playing_song
    = (Raised EngineInitError, playing_song) /\
  Backend.engine_log (after (Backend.initialize Returns obliging Backend.MPVBackend_init))
    = observers /\
  Backend.has_engine (after (Backend.initialize Returns failing Backend.MPVBackend_init))
    = true /\
  (exists e, result (Backend.initialize Returns failing Backend.MPVBackend_init)
             = Raised e).
Proof.
  pose proof (initialize_installs_engine Raises obliging playing_song)
    as (_ & H1 & _).
  pose proof (initialize_installs_engine Returns obliging Backend.MPVBackend_init)
    as (_ & _ & _ & H2 & _).
  pose proof (initialize_installs_engine Returns failing Backend.MPVBackend_init)
    as (_ & _ & H3 & _ & H4).
  split; [apply H1; reflexivity |].
  split; [apply (H2 eq_refl); reflexivity |].
  split; [apply (H3 eq_refl) |].
  apply (H4 eq_refl "pause"); [right; right; left; reflexivity | reflexivity].
Defined.

(** End of stream: a truthy [eof-reached] value resets state, media and
    position from any store and leaves duration, volume, mute and the
    engine alone; a falsy value changes nothing and does not reach the
    notification call. *)
Theorem on_eof_resets (name : string) (value : option bool)
    (b : Backend.MPVBackend) :
  let b' := fst (Backend._on_eof name value b) in
  (value = Some true ->
     Backend.state b' = "idle" /\
     Backend.current_media b' = None /\
     Backend.media_position b' = f0 /\
     Backend.media_duration b' = Backend.media_duration b /\
     Backend.volume_level b' = Backend.volume_level b /\
     Backend.is_muted b' = Backend.is_muted b /\
     Backend._mpv_player b' = Backend._mpv_player b) /\
  (value <> Some true -> Backend._on_eof name value b = (b, false)).
Proof.
  cbv zeta. split.
  - intros ->. repeat split.
  - destruct value as [[|]|]; [congruence | reflexivity | reflexivity].
Qed.

Lemma on_eof_resets_witness :
  Backend.state playing_song = "playing" /\
  Backend.state (fst (Backend._on_eof "eof-reached" (Some true) playing_song))
    = "idle" /\
  Backend.current_media
    (fst (Backend._on_eof "eof-reached" (Some true) playing_song)) = None /\
  Backend._on_eof "eof-reached" (Some false) playing_song = (playing_song, false).
Proof.
  pose proof (on_eof_resets "eof-reached" (Some true) playing_song) as [H1 _].
  pose proof (on_eof_resets "eof-reached" (Some false) playing_song) as [_ H2].
  cbv zeta in H1, H2.
  destruct (H1 eq_refl) as (Ha & Hb & _).
  split; [reflexivity |]. split; [exact Ha |]. split; [exact Hb |].
  apply H2. discriminate.
Defined.

(** Each observer writes its own field only.  The position and duration
    observers ignore a [None] value altogether; with a value they store it
    and nothing else.  The pause observer writes nothing but the state, and
    the state it leaves is paused, playing or the one before. *)
Theorem observers_write_their_field (name : string) (b : Backend.MPVBackend) :
  Backend._on_position_change name None b = (b, false) /\
  Backend._on_duration_change name None b = (b, false) /\
  (forall v,
     fst (Backend._on_position_change name (Some v) b) = Backend.set_position v b /\
     fst (Backend._on_duration_change name (Some v) b) = Backend.set_duration v b) /\
  (forall value,
     let b' := fst (Backend._on_pause_change name value b) in
     (b' = b \/ b' = Backend.set_state "paused" b
      \/ b' = Backend.set_state "playing" b) /\
     (value = Some true -> Backend.state b' = "paused") /\
     (value <> Some true -> otruthy (Backend.current_media b) = true ->
        Backend.state b' = "playing") /\
     (value <> Some true -> otruthy (Backend.current_media b) = false ->
        b' = b)).
Proof.
  split; [reflexivity |]. split; [reflexivity |].
  split; [intros v; split; reflexivity |].
  intros value. cbv zeta. unfold Backend._on_pause_change, Backend.current_media.
  destruct value as [[|]|]; simpl;
    destruct (otruthy (Backend._current_media b)); simpl;
    repeat split; auto; try congruence; try (intros; discriminate).
Qed.

Lemma observers_write_their_field_witness :
  Backend.state (fst (Backend._on_pause_change "pause" (Some true) playing_song))
    = "paused" /\
  Backend.state (fst (Backend._on_pause_change "pause" (Some false) playing_song))
    = "playing" /\
  fst (Backend._on_pause_change "pause" (Some false) Backend.MPVBackend_init)
    = Backend.MPVBackend_init.
Proof.
  pose proof (observers_write_their_field "pause" playing_song)
    as (_ & _ & _ & H).
  pose proof (observers_write_their_field "pause" Backend.MPVBackend_init)
    as (_ & _ & _ & H').
  destruct (H (Some true)) as (_ & H1 & _).
  destruct (H (Some false)) as (_ & _ & H2 & _).
  destruct (H' (Some false)) as (_ & _ & _ & H3).
  split; [apply H1; reflexivity |].
  split; [apply H2; [discriminate | reflexivity] |].
  apply H3; [discriminate | reflexivity].
Defined.

(** No notification from the engine ever sends a request to the engine or
    changes volume or mute. *)
Lemma deliver_leaves_engine (e : Event) (b : Backend.MPVBackend) :
  Backend._mpv_player (deliver e b) = Backend._mpv_player b /\
  Backend.volume_level (deliver e b) = Backend.volume_level b /\
  Backend.is_muted (deliver e b) = Backend.is_muted b /\
  Backend._state_callback (deliver e b) = Backend._state_callback b.
Proof.
  destruct e as [[v|] | [v|] | [[|]|] | [[|]|]];
    unfold deliver, Backend._on_pause_change; simpl;
    try destruct (otruthy (Backend._current_media b));
    repeat split.
Qed.

(** ** Which writes a field can receive *)

(** Over all methods and notifications: the stored volume changes only in
    [set_volume] and then to its argument, the mute flag only in
    [set_mute] and then to its argument, and the duration only in the
    duration observer and then to the reported value. *)
Theorem field_writers (a : Action) (b : Backend.MPVBackend) :
  (Backend.volume_level (step a b) <> Backend.volume_level b ->
     exists v o, a = Do (CSetVolume v) o /\ Backend.volume_level (step a b) = v) /\
  (Backend.is_muted (step a b) <> Backend.is_muted b ->
     exists m o, a = Do (CSetMute m) o /\ Backend.is_muted (step a b) = m) /\
  (Backend.media_duration (step a b) <> Backend.media_duration b ->
     exists v, a = Deliver (DurationChanged (Some v)) /\
               Backend.media_duration (step a b) = v).
Proof.
  unfold Backend.volume_level, Backend.is_muted, Backend.media_duration.
  destruct a as [c o | e].
  - simpl. repeat split; intros Hne.
    + destruct c; try (exfalso; apply Hne; split_engine b; unfold_backend;
                       simpl; ask_oracle; reflexivity).
      exists volume, o. split; [reflexivity |].
      revert Hne. split_engine b; unfold_backend; simpl; ask_oracle;
        intros Hne; try reflexivity; contradiction.
    + destruct c; try (exfalso; apply Hne; split_engine b; unfold_backend;
                       simpl; ask_oracle; reflexivity).
      exists muted, o. split; [reflexivity |].
      revert Hne. split_engine b; unfold_backend; simpl; ask_oracle;
        intros Hne; try reflexivity; contradiction.
    + exfalso. apply Hne. destruct c; split_engine b; unfold_backend;
        simpl; ask_oracle; reflexivity.
  - pose proof (deliver_leaves_engine e b) as (_ & Hv & Hm & _).
    unfold Backend.volume_level, Backend.is_muted in Hv, Hm. simpl.
    repeat split; intros Hne; try congruence.
    destruct e as [[v|] | [v|] | [[|]|] | [[|]|]];
      unfold deliver, Backend._on_pause_change in *; simpl in *;
      try destruct (otruthy (Backend._current_media b));
      try contradiction.
    all: exists v; split; reflexivity.
Qed.

Lemma field_writers_witness :
  Backend.volume_level (step (Do (CSetVolume half) obliging) playing_song) = half /\
  Backend.is_muted (step (Do (CSetMute true) obliging) playing_song) = true /\
  Backend.media_duration (step (Deliver (DurationChanged (Some thirty))) playing_song)
    = thirty.
Proof.
  split; [| split].
  - assert (Hne : Backend.volume_level (step (Do (CSetVolume half) obliging) playing_song)
                  <> Backend.volume_level playing_song)
      by (vm_compute; discriminate).
    destruct (proj1 (field_writers (Do (CSetVolume half) obliging) playing_song) Hne)
      as (v & o & Ha & Hv).
    injection Ha as <- _. exact Hv.
  - assert (Hne : Backend.is_muted (step (Do (CSetMute true) obliging) playing_song)
                  <> Backend.is_muted playing_song)
      by (vm_compute; discriminate).
    destruct (proj1 (proj2 (field_writers (Do (CSetMute true) obliging) playing_song)) Hne)
      as (m & o & Ha & Hm).
    injection Ha as <- _. exact Hm.
  - assert (Hne : Backend.media_duration
                    (step (Deliver (DurationChanged (Some thirty))) playing_song)
                  <> Backend.media_duration playing_song)
      by (vm_compute; discriminate).
    destruct (proj2 (proj2 (field_writers (Deliver (DurationChanged (Some thirty)))
                              playing_song)) Hne)
      as (v & Ha & Hv).
    injection Ha as <-. exact Hv.
Defined.

(** ** Engine failures: swallowed or raised *)

(** An engine failure reaches the caller in [pause], [resume] and [stop],
    which raise exactly when an instance exists and raises on their
    request, and in [play_media], which raises exactly when no instance
    exists or the engine raises.  [set_volume], [set_mute], [seek] and
    [cleanup] never raise, whatever the engine does. *)
Theorem engine_failure_propagation (o : Oracle) (b : Backend.MPVBackend) :
  (forall v, result (Backend.set_volume o v b) = Ok tt) /\
  (forall m, result (Backend.set_mute o m b) = Ok tt) /\
  (forall p, result (Backend.seek o p b) = Ok tt) /\
  result (Backend.cleanup o b) = Ok tt /\
  (forall c r, (c = CPause /\ r = ESetPause true) \/
               (c = CResume /\ r = ESetPause false) \/
               (c = CStop /\ r = EStop) ->
     result (perform c o b) =
       (if Backend.has_engine b
        then match o r with
             | Returns => Ok tt
             | Raises => Raised (EngineError r)
             end
        else Ok tt)) /\
  (forall url mt,
     result (Backend.play_media o url mt b) =
       (match Backend._mpv_player b with
        | None => Raised (AttributeError "_mpv_player")
        | Some _ => match o (EPlay url) with
                    | Returns => Ok tt
                    | Raises => Raised (EngineError (EPlay url))
                    end
        end)).
Proof.
  split; [| split; [| split; [| split; [| split]]]].
  - intros v. split_engine b; unfold_backend; simpl; ask_oracle; reflexivity.
  - intros m. split_engine b; unfold_backend; simpl; ask_oracle; reflexivity.
  - intros p. split_engine b; unfold_backend; simpl; ask_oracle; reflexivity.
  - split_engine b; unfold_backend; simpl; ask_oracle; reflexivity.
  - intros c r [[-> ->] | [[-> ->] | [-> ->]]];
      split_engine b; unfold_backend; simpl; ask_oracle; reflexivity.
  - intros url mt. split_engine b; unfold_backend; simpl; ask_oracle;
      reflexivity.
Qed.

Lemma engine_failure_propagation_witness :
  result (perform CPause failing playing_song) = Raised (EngineError (ESetPause true)) /\
  result (perform CStop failing Backend.MPVBackend_init) = Ok tt /\
  result (Backend.play_media obliging song None Backend.MPVBackend_init)
    = Raised (AttributeError "_mpv_player").
Proof.
  pose proof (engine_failure_propagation failing playing_song)
    as (_ & _ & _ & _ & H1 & _).
  pose proof (engine_failure_propagation failing Backend.MPVBackend_init)
    as (_ & _ & _ & _ & H2 & _).
  pose proof (engine_failure_propagation obliging Backend.MPVBackend_init)
    as (_ & _ & _ & _ & _ & H3).
  split; [| split].
  - rewrite (H1 CPause (ESetPause true)); [reflexivity | left; split; reflexivity].
  - rewrite (H2 CStop EStop); [reflexivity | right; right; split; reflexivity].
  - rewrite H3. reflexivity.
Defined.

(** When the engine raises on [stop], the error reaches the caller and
    nothing is reset: the store keeps state, media and position, and the
    entity keeps its media information. *)
Theorem stop_refused_keeps_store (o : Oracle) (p : Player.PipePlayPlayer) :
  Backend.has_engine (Player._backend p) = true ->
  o EStop = Raises ->
  let r := Player.async_media_stop o p in
  result r = Raised (EngineError EStop) /\
  Backend.snapshot (Player._backend (after r)) = Backend.snapshot (Player._backend p) /\
  Player.media_title (after r) = Player.media_title p /\
  Player.media_artist (after r) = Player.media_artist p /\
  Player.media_album_name (after r) = Player.media_album_name p /\
  Player.media_content_type (after r) = Player.media_content_type p /\
  Backend.engine_log (Player._backend (after r))
    = (Backend.engine_log (Player._backend p) ++ [EStop])%list.
Proof.
  intros Heng Hraise. cbv zeta.
  unfold Player.async_media_stop, Player.async_schedule_update_ha_state,
    bind, modify, ret, result, after.
  rewrite on_backend_run.
  destruct p as [b t ar al ct du po]. simpl in *.
  split_engine b; simpl in *; [| discriminate].
  unfold Backend.stop. unfold_m. simpl. rewrite Hraise. simpl.
  repeat split.
Qed.

Lemma stop_refused_keeps_store_witness :
  let r := Player.async_media_stop failing player_with_song in
  Player.state player_with_song = PLAYING /\
  result r = Raised (EngineError EStop) /\
  Player.state (after r) = PLAYING /\
  Player.media_title (after r) = Some "song.mp3".
Proof.
  cbv zeta.
  destruct (stop_refused_keeps_store failing player_with_song eq_refl eq_refl)
    as (H1 & H2 & H3 & _).
  split; [reflexivity |]. split; [exact H1 |].
  split.
  - unfold Player.state, Backend.state.
    change (Backend._state (Player._backend
              (after (Player.async_media_stop failing player_with_song))))
      with (Backend.snap_state (Backend.snapshot (Player._backend
              (after (Player.async_media_stop failing player_with_song))))).
    rewrite H2. reflexivity.
  - rewrite H3. reflexivity.
Defined.

(** ** Requests sent to the engine *)

(** Every method other than [initialize] and [cleanup] keeps the engine
    instance (or its absence) and sends at most one request: exactly its
    own request when an instance exists (for [seek], when media is loaded
    as well), and nothing otherwise.  The request is recorded whether the
    engine accepts it or raises. *)
Theorem requests_sent (c : Command) (o : Oracle) (b : Backend.MPVBackend) :
  keeps_engine (Do c o) = true ->
  Backend.has_engine (after (perform c o b)) = Backend.has_engine b /\
  Backend.engine_log (after (perform c o b)) =
    (Backend.engine_log b ++
     match request_of c with
     | Some r => if Backend.has_engine b && sends c b then [r] else []
     | None => []
     end)%list.
Proof.
  intros Hk.
  destruct c; try discriminate Hk;
    split_engine b; unfold_backend; unfold Backend.engine_log; simpl;
    ask_oracle; split; try reflexivity;
    try (rewrite app_nil_r; reflexivity).
Qed.

Lemma requests_sent_witness :
  Backend.engine_log (after (perform (CSeek half) obliging playing_song))
    = (Backend.engine_log playing_song ++ [ESeek half])%list /\
  Backend.engine_log (after (perform (CSeek half) obliging started))
    = (Backend.engine_log started ++ [])%list /\
  Backend.engine_log (after (perform CPause failing playing_song))
    = (Backend.engine_log playing_song ++ [ESetPause true])%list.
Proof.
  split; [| split].
  - exact (proj2 (requests_sent (CSeek half) obliging playing_song eq_refl)).
  - exact (proj2 (requests_sent (CSeek half) obliging started eq_refl)).
  - exact (proj2 (requests_sent CPause failing playing_song eq_refl)).
Defined.

Lemma step_log_grows (a : Action) (b : Backend.MPVBackend) :
  keeps_engine a = true ->
  Backend.has_engine (step a b) = Backend.has_engine b /\
  exists l, Backend.engine_log (step a b) = (Backend.engine_log b ++ l)%list /\
            (length l <= 1)%nat.
Proof.
  intros Hk. destruct a as [c o | e].
  - simpl. destruct c; try discriminate Hk;
      split_engine b; unfold_backend; unfold Backend.engine_log; simpl;
      ask_oracle; split; try reflexivity;
      solve [ eexists; split; [reflexivity | simpl; lia]
            | exists []; split; [rewrite app_nil_r; reflexivity | simpl; lia] ].
  - pose proof (deliver_leaves_engine e b) as [He _]. simpl.
    unfold Backend.has_engine, Backend.engine_log. rewrite He.
    split; [reflexivity |].
    exists []. split; [rewrite app_nil_r; reflexivity | simpl; lia].
Qed.

(** Along a history without [initialize] and [cleanup] no request is ever
    lost or reordered: the engine's record only grows at its end, by at
    most one request per action, and the instance is neither created nor
    released. *)
Theorem engine_log_only_grows (h : list Action) (b : Backend.MPVBackend) :
  forallb keeps_engine h = true ->
  Backend.has_engine (run h b) = Backend.has_engine b /\
  exists l, Backend.engine_log (run h b) = (Backend.engine_log b ++ l)%list /\
            (length l <= length h)%nat.
Proof.
  revert b. induction h as [| a h IH]; intros b Hall; simpl in *.
  - split; [reflexivity |].
    exists []. split; [rewrite app_nil_r; reflexivity | simpl; lia].
  - apply andb_true_iff in Hall. destruct Hall as [Ha Hh].
    destruct (step_log_grows a b Ha) as [He (l1 & Hl1 & Hn1)].
    destruct (IH (step a b) Hh) as [He' (l2 & Hl2 & Hn2)].
    split; [congruence |].
    exists (l1 ++ l2)%list. split.
    + rewrite Hl2, Hl1, app_assoc. reflexivity.
    + rewrite length_app. lia.
Qed.

Lemma engine_log_only_grows_witness :
  let h := [Do CPause obliging; Deliver (PauseChanged (Some true));
            Do (CSeek thirty) failing; Do CResume obliging] in
  Backend.has_engine (run h playing_song) = true /\
  exists l, Backend.engine_log (run h playing_song)
            = (Backend.engine_log playing_song ++ l)%list /\
            (length l <= 4)%nat.
Proof.
  cbv zeta.
  exact (engine_log_only_grows
           [Do CPause obliging; Deliver (PauseChanged (Some true));
            Do (CSeek thirty) failing; Do CResume obliging]
           playing_song eq_refl).
Defined.

(** * Further properties of the entity and the transports *)

Lemma backend_after_on_backend {A} (m : M Backend.MPVBackend A)
    (p : Player.PipePlayPlayer) :
  Player._backend (after (Player.on_backend m p)) = after (m (Player._backend p)).
Proof. rewrite on_backend_run. reflexivity. Qed.

Lemma after_then_ret {S A B} (m : M S A) (x : B) (s : S) :
  after ((m ;; ret x) s) = after (m s).
Proof.
  unfold after, bind, ret. destruct (m s) as [[a|e] s']; reflexivity.
Qed.

Lemma result_then_ret {S A B} (m : M S A) (x : B) (s : S) :
  result ((m ;; ret x) s) =
  match result (m s) with Ok _ => Ok x | Raised e => Raised e end.
Proof.
  unfold result, bind, ret. destruct (m s) as [[a|e] s']; reflexivity.
Qed.

Lemma async_mute_volume_run (o : Oracle) (m : bool) (p : Player.PipePlayPlayer) :
  Player.async_mute_volume o m p =
  (if Player.hass p then Ok tt else Raised RuntimeError,
   Player.with_backend (after (Backend.set_mute o m (Player._backend p))) p).
Proof.
  unfold Player.async_mute_volume. rewrite then_schedule_run.
  assert (H : fst (Backend.set_mute o m (Player._backend p)) = Ok tt).
  { generalize (Player._backend p). intros b.
    split_engine b; unfold_backend; simpl; ask_oracle; reflexivity. }
  rewrite H. reflexivity.
Qed.

Lemma async_media_seek_run (o : Oracle) (x : pyfloat) (p : Player.PipePlayPlayer) :
  Player.async_media_seek o x p =
  (if Player.hass p then Ok tt else Raised RuntimeError,
   Player.with_backend (after (Backend.seek o x (Player._backend p))) p).
Proof.
  unfold Player.async_media_seek. rewrite then_schedule_run.
  assert (H : fst (Backend.seek o x (Player._backend p)) = Ok tt).
  { generalize (Player._backend p). intros b.
    split_engine b; unfold_backend; simpl; ask_oracle; reflexivity. }
  rewrite H. reflexivity.
Qed.

Lemma seek_keeps_snapshot (o : Oracle) (x : pyfloat) (b : Backend.MPVBackend) :
  Backend.snapshot (after (Backend.seek o x b)) = Backend.snapshot b.
Proof.
  split_engine b; unfold_backend; simpl; ask_oracle; reflexivity.
Qed.

(** What each method of the entity does to the backend it wraps. *)
Lemma player_methods_backend (o : Oracle) (p : Player.PipePlayPlayer) :
  Player._backend (after (Player.async_media_pause o p))
    = after (Backend.pause o (Player._backend p)) /\
  Player._backend (after (Player.async_media_stop o p))
    = after (Backend.stop o (Player._backend p)) /\
  (forall v, Player._backend (after (Player.async_set_volume_level o v p))
             = after (Backend.set_volume o v (Player._backend p))) /\
  (forall m, Player._backend (after (Player.async_mute_volume o m p))
             = after (Backend.set_mute o m (Player._backend p))) /\
  (forall x, Player._backend (after (Player.async_media_seek o x p))
             = after (Backend.seek o x (Player._backend p))) /\
  (Player._backend (after (Player.async_media_play o p)) = Player._backend p \/
   Player._backend (after (Player.async_media_play o p))
     = after (Backend.resume o (Player._backend p))).
Proof.
  repeat split; try intros x.
  - apply backend_after_on_backend.
  - rewrite async_media_stop_run. unfold after.
    destruct (Backend.stop o (Player._backend p)) as [[[]|e] b1]; reflexivity.
  - rewrite async_set_volume_level_run. reflexivity.
  - rewrite async_mute_volume_run. reflexivity.
  - rewrite async_media_seek_run. reflexivity.
  - unfold Player.async_media_play, bind, gets.
    destruct (MediaPlayerState_eqb (Player.state p) PAUSED).
    + right. apply backend_after_on_backend.
    + left. reflexivity.
Qed.

(** No method of the entity sets or clears [hass]. *)
Lemma player_methods_hass (o : Oracle) (p : Player.PipePlayPlayer) :
  Player.hass (after (Player.async_media_pause o p)) = Player.hass p /\
  Player.hass (after (Player.async_media_stop o p)) = Player.hass p /\
  (forall v, Player.hass (after (Player.async_set_volume_level o v p))
             = Player.hass p) /\
  (forall m, Player.hass (after (Player.async_mute_volume o m p))
             = Player.hass p) /\
  (forall x, Player.hass (after (Player.async_media_seek o x p))
             = Player.hass p) /\
  Player.hass (after (Player.async_media_play o p)) = Player.hass p /\
  (forall lookup mt id,
     Player.hass (after (Player.async_play_media o lookup mt id p))
     = Player.hass p).
Proof.
  repeat split; try intros x.
  - unfold Player.async_media_pause. rewrite on_backend_run. reflexivity.
  - rewrite async_media_stop_run. unfold after.
    destruct (Backend.stop o (Player._backend p)) as [[[]|e] b1]; reflexivity.
  - rewrite async_set_volume_level_run. reflexivity.
  - rewrite async_mute_volume_run. reflexivity.
  - rewrite async_media_seek_run. reflexivity.
  - unfold Player.async_media_play, bind, gets.
    destruct (MediaPlayerState_eqb (Player.state p) PAUSED);
      [rewrite on_backend_run |]; reflexivity.
  - intros mt id. destruct x as [probe | e]; [| reflexivity].
    destruct p as [b0 t0 ar0 al0 ct0 du0 po0 ha0].
    unfold Player.async_play_media.
    unfold after, try_except, bind, modify, raise.
    destruct probe as [t ar al | name]; simpl;
      destruct (String.eqb mt Player.MUSIC); simpl;
      try destruct (String.eqb mt Player.PODCAST); simpl;
      rewrite on_backend_run; simpl;
      destruct (Backend.play_media o id (Some mt) b0)
        as [[[]|e] b1]; simpl; try rewrite schedule_run; simpl;
      destruct ha0; reflexivity.
Qed.

Lemma dispatch_backend_step (o : Oracle) (lookup : Lookup)
    (data : Api.CommandData) (p : Player.PipePlayPlayer) :
  let p' := after (Api.dispatch o lookup data p) in
  Player.hass p' = Player.hass p /\
  (Player._backend p' = Player._backend p \/
   exists c, keeps_engine (Do c o) = true /\
             Player._backend p' = after (perform c o (Player._backend p))).
Proof.
  cbv zeta.
  destruct (player_methods_backend o p)
    as (Hpause & Hstop & Hvol & Hmute & Hseek & Hplay).
  destruct (player_methods_hass o p)
    as (Kpause & Kstop & Kvol & Kmute & Kseek & Kplay & Kmedia).
  unfold Api.dispatch.
  destruct (Api.is_command (Api.command data) "play").
  { rewrite after_then_ret. split; [exact Kplay |].
    destruct Hplay as [H | H]; [left; exact H |].
    right. exists CResume. split; [reflexivity | exact H]. }
  destruct (Api.is_command (Api.command data) "pause").
  { rewrite after_then_ret. split; [exact Kpause |].
    right. exists CPause. split; [reflexivity | exact Hpause]. }
  destruct (Api.is_command (Api.command data) "stop").
  { rewrite after_then_ret. split; [exact Kstop |].
    right. exists CStop. split; [reflexivity | exact Hstop]. }
  destruct (Api.is_command (Api.command data) "play_media").
  { destruct (negb (Api.truthy (Api.media_id data)));
      [split; [| left]; reflexivity |].
    destruct (Api.media_id data) as [[| ? | ? | id | ? | ?] |];
      try (split; [| left]; reflexivity).
    rewrite after_then_ret. split; [apply Kmedia |].
    destruct lookup as [probe | e]; [| left; reflexivity].
    right.
    set (mt := Api.media_type_text
                 match Api.media_type data with
                 | Some t => t
                 | None => JStr "music"
                 end).
    exists (CPlayMedia id (Some mt)). split; [reflexivity |].
    exact (proj2 (async_play_media_run o probe mt id p)). }
  destruct (Api.is_command (Api.command data) "volume").
  { destruct (Api.level data) as [l |]; [| split; [| left]; reflexivity].
    destruct l as [| [|] | x | ? | ? | ?]; unfold jnumber;
      try (split; [| left]; reflexivity).
    all: match goal with
         | |- context [negb (in_unit_range ?v)] =>
             destruct (negb (in_unit_range v));
             [split; [| left]; reflexivity |];
             rewrite after_then_ret; split; [apply Kvol |];
             right; exists (CSetVolume v);
             split; [reflexivity | apply Hvol]
         end. }
  destruct (Api.is_command (Api.command data) "mute").
  { destruct (Api.muted data) as [m |]; [| split; [| left]; reflexivity].
    destruct m; try (split; [| left]; reflexivity).
    all: rewrite after_then_ret; split; [apply Kmute |];
         right; eexists (CSetMute _); split; [reflexivity | apply Hmute]. }
  destruct (Api.is_command (Api.command data) "seek").
  { destruct (Api.position data) as [x |]; [| split; [| left]; reflexivity].
    destruct x; try (split; [| left]; reflexivity).
    all: rewrite after_then_ret; split; [apply Kseek |];
         right; eexists (CSeek _); split; [reflexivity | apply Hseek]. }
  split; [| left]; reflexivity.
Qed.

(** Each HTTP command runs at most one method of the backend, and never
    [initialize] or [cleanup]: after the handler the backend is either
    untouched or what that one method left. *)
Theorem http_runs_one_method (o : Oracle) (lookup : Lookup)
    (data : Api.CommandData) (p : Player.PipePlayPlayer) :
  let p' := after (Api.dispatch o lookup data p) in
  Player._backend p' = Player._backend p \/
  exists c, keeps_engine (Do c o) = true /\
            Player._backend p' = after (perform c o (Player._backend p)).
Proof. exact (proj2 (dispatch_backend_step o lookup data p)). Qed.

(** Without an engine instance, a method other than [initialize] leaves
    an idle store idle and without media. *)
Lemma no_engine_stays_idle (c : Command) (o : Oracle) (b : Backend.MPVBackend) :
  (forall ctor, c <> CInitialize ctor) ->
  Backend.has_engine b = false ->
  Backend._state b = "idle" -> Backend._current_media b = None ->
  let b' := after (perform c o b) in
  Backend.has_engine b' = false /\ Backend._state b' = "idle" /\
  Backend._current_media b' = None.
Proof.
  intros Hc Heng Hs Hm. cbv zeta.
  split_engine b; simpl in *; [discriminate |].
  destruct c; try (exfalso; eapply Hc; reflexivity);
    unfold_backend; simpl; repeat split; assumption || reflexivity.
Qed.

Lemma handle_command_player (o : Oracle) (lookup : Lookup)
    (body : Api.Body) (p : Player.PipePlayPlayer) :
  exists p', snd (Api._handle_command o lookup body (Some p)) = Some p' /\
    (p' = p \/
     exists data, body = Api.Object data /\
                  p' = after (Api.dispatch o lookup data p)).
Proof.
  unfold Api._handle_command.
  destruct body as [e | | | data];
    try (exists p; split; [reflexivity | left; reflexivity]).
  unfold after.
  destruct (Api.dispatch o lookup data p) as [[resp | e] p'] eqn:E; simpl;
    exists p'; (split; [reflexivity |]); right; exists data;
    (split; [reflexivity | rewrite E; reflexivity]).
Qed.

(** The service as [main.py] starts it constructs the entity and never
    adds it to Home Assistant nor calls [async_added_to_hass], so [hass]
    stays [None] and the backend is never initialised.  Whatever requests
    the command handler is then sent, no engine instance exists and the
    entity reports idle with no media.  Every [play_media] request with a
    truthy [media_id] is answered with status 500: for the attribute error
    on the missing instance when the locator is a string and the look-up
    returns, for the look-up's own exception when it raises, and for the
    type error when the locator is not a string. *)
Theorem standalone_http_never_plays
    (requests : list (Oracle * Lookup * Api.Body)) :
  exists p,
    serve requests (Some Player.PipePlayPlayer_init) = Some p /\
    Player.hass p = false /\
    Backend.has_engine (Player._backend p) = false /\
    Player.state p = IDLE /\
    Backend.current_media (Player._backend p) = None /\
    forall o lookup data,
      Api.command data = Some (JStr "play_media") ->
      Api.truthy (Api.media_id data) = true ->
      let resp := fst (Api._handle_command o lookup (Api.Object data) (Some p)) in
      Api.status resp = 500%Z /\
      (forall id probe,
         Api.media_id data = Some (JStr id) -> lookup = Found probe ->
         resp = Api.failed 500 (StrOf (AttributeError "_mpv_player"))) /\
      (forall id e,
         Api.media_id data = Some (JStr id) -> lookup = LookupRaises e ->
         resp = Api.failed 500 (StrOf e)) /\
      ((forall id, Api.media_id data <> Some (JStr id)) ->
         resp = Api.failed 500 (StrOf TypeError)).
Proof.
  assert (Hgen : forall rs p,
            Player.hass p = false ->
            Backend.has_engine (Player._backend p) = false ->
            Backend._state (Player._backend p) = "idle" ->
            Backend._current_media (Player._backend p) = None ->
            exists p', serve rs (Some p) = Some p' /\
              Player.hass p' = false /\
              Backend.has_engine (Player._backend p') = false /\
              Backend._state (Player._backend p') = "idle" /\
              Backend._current_media (Player._backend p') = None).
  { clear requests. intros rs.
    induction rs as [| [[o lookup] body] rest IH];
      intros p Hh He Hs Hm.
    - exists p. repeat split; assumption.
    - simpl.
      destruct (handle_command_player o lookup body p) as (p1 & Hp1 & Hcase).
      unfold serve in IH. rewrite Hp1.
      destruct Hcase as [-> | (data & -> & ->)]; [apply IH; assumption |].
      destruct (dispatch_backend_step o lookup data p)
        as [Hk' [Hb | (c & Hk & Hb)]];
        cbv zeta in Hb, Hk'; apply IH; try (rewrite Hk'; exact Hh);
        rewrite Hb; try assumption.
      all: assert (Hc : forall ctor, c <> CInitialize ctor)
             by (intros ctor ->; discriminate Hk);
           destruct (no_engine_stays_idle c o _ Hc He Hs Hm) as (H1 & H2 & H3);
           assumption. }
  destruct (Hgen requests Player.PipePlayPlayer_init eq_refl eq_refl eq_refl eq_refl)
    as (p & Hp & Hh & He & Hs & Hm).
  exists p. split; [exact Hp |]. split; [exact Hh |]. split; [exact He |].
  split; [unfold Player.state, Backend.state; rewrite Hs; reflexivity |].
  split; [exact Hm |].
  intros o lookup data Hc Hid. cbv zeta.
  assert (Hplay : forall probe mt id,
            result (Player.async_play_media o (Found probe) mt id p)
            = Raised (AttributeError "_mpv_player")).
  { intros probe mt id.
    rewrite (proj1 (async_play_media_run o probe mt id p)).
    revert He. generalize (Player._backend p). intros b.
    split_engine b; simpl; [discriminate |]. intros _. reflexivity. }
  unfold Api._handle_command, Api.dispatch. rewrite Hc. simpl.
  rewrite Hid. simpl.
  destruct (Api.media_id data) as [[| ? | ? | id | ? | ?] |];
    try discriminate Hid;
    try (split; [reflexivity |]; split; [intros ? ? H; discriminate H |];
         split; [intros ? ? H; discriminate H |]; intros _; reflexivity).
  unfold bind.
  destruct lookup as [probe | e].
  - specialize (Hplay probe
                  (Api.media_type_text
                     match Api.media_type data with
                     | Some t => t
                     | None => JStr "music"
                     end) id).
    unfold result in Hplay.
    destruct (Player.async_play_media o (Found probe) _ id p) as [r' p'].
    simpl in Hplay. rewrite Hplay. simpl.
    split; [reflexivity |]. split; [intros; reflexivity |].
    split; [intros ? ? _ H; discriminate H |].
    intros H. exfalso. apply (H id). reflexivity.
  - rewrite async_play_media_lookup_raises. simpl.
    split; [reflexivity |]. split; [intros ? ? _ H; discriminate H |].
    split; [intros ? ? _ H; injection H as <-; reflexivity |].
    intros H. exfalso. apply (H id). reflexivity.
Qed.

(** ** The HTTP handler *)

Lemma dispatch_outcome (o : Oracle) (lookup : Lookup) (data : Api.CommandData)
    (p : Player.PipePlayPlayer) :
  match Api.dispatch o lookup data p with
  | (Ok resp, p') =>
      resp = Api.succeeded \/
      (exists msg, resp = Api.failed 400 msg) /\ p' = p
  | (Raised _, _) => True
  end.
Proof.
  unfold Api.dispatch.
  repeat match goal with
         | |- context [if Api.is_command ?c ?n then _ else _] =>
             destruct (Api.is_command c n)
         | |- context [if negb ?t then _ else _] => destruct (negb t)
         | |- context [match Api.media_id data with _ => _ end] =>
             destruct (Api.media_id data) as [[| ? | ? | ? | ? | ?] |]
         | |- context [match Api.level data with _ => _ end] =>
             destruct (Api.level data) as [[| [|] | ? | ? | ? | ?] |];
             unfold jnumber
         | |- context [match Api.muted data with _ => _ end] =>
             destruct (Api.muted data) as [[| ? | ? | ? | ? | ?] |]
         | |- context [match Api.position data with _ => _ end] =>
             destruct (Api.position data) as [[| ? | ? | ? | ? | ?] |]
         end;
    try exact I;
    try (unfold ret; right; split; [eexists; reflexivity | reflexivity]);
    unfold bind, ret;
    match goal with
    | |- context [match ?m p with _ => _ end] =>
        destruct (m p) as [[a | e] p1]; auto
    end.
Qed.

(** Every answer of the command handler has status 200, 400, 500 or 503,
    and success is reported exactly with 200.  A body that is not JSON is
    refused with 400; a body that cannot be read, and one that decodes to
    something other than an object, are answered 500, with or without a
    player, since the handler reads the command before it looks at the
    player.  The answer is 503 exactly for an object sent while there is no
    player.  Every refusal with 400 or 503 leaves the player exactly as it
    was, and the handler never drops or creates the player. *)
Theorem handle_command_classes (o : Oracle) (lookup : Lookup)
    (body : Api.Body) (mp : option Player.PipePlayPlayer) :
  let resp := fst (Api._handle_command o lookup body mp) in
  let mp' := snd (Api._handle_command o lookup body mp) in
  (Api.status resp = 200 \/ Api.status resp = 400 \/
   Api.status resp = 500 \/ Api.status resp = 503)%Z /\
  (Api.success resp = true <-> Api.status resp = 200%Z) /\
  (Api.status resp = 400%Z \/ Api.status resp = 503%Z -> mp' = mp) /\
  (body = Api.NotJson -> resp = Api.failed 400 (Text "Invalid JSON")) /\
  (body = Api.NotObject ->
     resp = Api.failed 500 (StrOf (AttributeError "get")) /\ mp' = mp) /\
  (forall e, body = Api.Unreadable e ->
     resp = Api.failed 500 (StrOf e) /\ mp' = mp) /\
  (Api.status resp = 503%Z <-> (exists data, body = Api.Object data) /\ mp = None) /\
  (mp' = None <-> mp = None).
Proof.
  cbv zeta. unfold Api._handle_command.
  destruct body as [e | | | data]; [| | | destruct mp as [p |]].
  - simpl. repeat split; auto; try discriminate;
      try (intros [? | ?]; discriminate);
      try (intros [[? ?] _]; discriminate);
      try congruence;
      try (intros H; discriminate H).
  - simpl. repeat split; auto; try discriminate;
      try (intros [[? ?] _]; discriminate);
      try (intros ? H; discriminate H);
      try (intros H; discriminate H).
  - simpl. repeat split; auto; try discriminate;
      try (intros [? | ?]; discriminate);
      try (intros [[? ?] _]; discriminate);
      try (intros ? H; discriminate H);
      try (intros H; discriminate H).
  - pose proof (dispatch_outcome o lookup data p) as H.
    destruct (Api.dispatch o lookup data p) as [[resp | e] p']; simpl.
    + destruct H as [-> | [[msg ->] ->]]; simpl;
        repeat split; auto; try discriminate;
        try (intros [? | ?]; discriminate);
        try (intros [_ ?]; discriminate);
        try (intros ? H; discriminate H);
        try (intros H; discriminate H).
    + repeat split; auto; try discriminate;
        try (intros [? | ?]; discriminate);
        try (intros [_ ?]; discriminate);
        try (intros ? H; discriminate H);
        try (intros H; discriminate H).
  - simpl. repeat split; auto; try discriminate;
      try (intros ? H; discriminate H);
      try (intros H; discriminate H).
    all: exists data; reflexivity.
Qed.

Lemma handle_command_classes_witness :
  snd (Api._handle_command obliging (Found (NotAFile ""))
         (Api.Object (Api.volume_request (JNum (Fin (3 # 2)))))
         (Some player_with_song))
    = Some player_with_song /\
  fst (Api._handle_command obliging (Found (NotAFile "")) Api.NotJson None)
    = Api.failed 400 (Text "Invalid JSON") /\
  fst (Api._handle_command obliging (Found (NotAFile "")) Api.NotObject None)
    = Api.failed 500 (StrOf (AttributeError "get")) /\
  Api.status (fst (Api._handle_command obliging (Found (NotAFile ""))
                     (Api.Object (Api.volume_request (JNum half))) None)) = 503%Z.
Proof.
  pose proof (handle_command_classes obliging (Found (NotAFile ""))
                (Api.Object (Api.volume_request (JNum (Fin (3 # 2)))))
                (Some player_with_song))
    as (_ & _ & H1 & _).
  pose proof (handle_command_classes obliging (Found (NotAFile "")) Api.NotJson None)
    as (_ & _ & _ & H2 & _).
  pose proof (handle_command_classes obliging (Found (NotAFile "")) Api.NotObject None)
    as (_ & _ & _ & _ & H4 & _).
  pose proof (handle_command_classes obliging (Found (NotAFile ""))
                (Api.Object (Api.volume_request (JNum half))) None)
    as (_ & _ & _ & _ & _ & _ & H3 & _).
  cbv zeta in H1, H2, H3, H4.
  split; [apply H1; left; reflexivity |].
  split; [apply H2; reflexivity |].
  split; [apply H4; reflexivity |].
  apply H3. split; [eexists; reflexivity | reflexivity].
Defined.

(** The [mute] and [seek] commands over HTTP.  Without their parameter
    (absent or null) they are refused with 400 and touch nothing.  With a
    boolean, [mute] runs the backend's [set_mute]; with a number, [seek]
    leaves the whole playback store as it was.  No failure of the engine
    reaches the answer: it is success on an entity that has been added to
    Home Assistant, and status 500 for the refused state write on one whose
    [hass] is [None]. *)
Theorem http_mute_and_seek (o : Oracle) (lookup : Lookup)
    (data : Api.CommandData) (p : Player.PipePlayPlayer) :
  let r := Api._handle_command o lookup (Api.Object data) (Some p) in
  let answer := if Player.hass p then Api.succeeded
                else Api.failed 500 (StrOf RuntimeError) in
  (Api.command data = Some (JStr "mute") ->
     (Api.is_none (Api.muted data) = true ->
        r = (Api.failed 400 (Text "muted parameter required"), Some p)) /\
     (forall m, Api.muted data = Some (JBool m) ->
        r = (answer,
             Some (Player.with_backend
                     (after (Backend.set_mute o m (Player._backend p))) p)))) /\
  (Api.command data = Some (JStr "seek") ->
     (Api.is_none (Api.position data) = true ->
        r = (Api.failed 400 (Text "position parameter required"), Some p)) /\
     (forall x, Api.position data = Some (JNum x) ->
        fst r = answer /\
        option_map (fun q => Backend.snapshot (Player._backend q)) (snd r)
        = Some (Backend.snapshot (Player._backend p)))).
Proof.
  cbv zeta.
  split; intros Hc; unfold Api._handle_command, Api.dispatch; rewrite Hc; simpl.
  - split.
    + destruct (Api.muted data) as [[| ? | ? | ? | ? | ?] |];
        simpl; try discriminate; reflexivity.
    + intros m ->. unfold bind, ret. simpl.
      rewrite async_mute_volume_run. destruct (Player.hass p); reflexivity.
  - split.
    + destruct (Api.position data) as [[| ? | ? | ? | ? | ?] |];
        simpl; try discriminate; reflexivity.
    + intros x ->. unfold bind, ret. simpl.
      rewrite async_media_seek_run.
      destruct (Player.hass p); simpl; rewrite seek_keeps_snapshot;
        split; reflexivity.
Qed.

Lemma http_mute_and_seek_witness :
  let mute_true :=
    {| Api.command := Some (JStr "mute"); Api.media_type := None;
       Api.media_id := None; Api.level := None;
       Api.muted := Some (JBool true); Api.position := None |} in
  let seek_nothing :=
    {| Api.command := Some (JStr "seek"); Api.media_type := None;
       Api.media_id := None; Api.level := None;
       Api.muted := None; Api.position := None |} in
  fst (Api._handle_command failing (Found (NotAFile "")) (Api.Object mute_true)
         (Some Player.PipePlayPlayer_init))
    = Api.failed 500 (StrOf RuntimeError) /\
  option_map Player.is_volume_muted
    (snd (Api._handle_command failing (Found (NotAFile "")) (Api.Object mute_true)
            (Some Player.PipePlayPlayer_init))) = Some true /\
  fst (Api._handle_command failing (Found (NotAFile "")) (Api.Object mute_true)
         (Some player_with_song)) = Api.succeeded /\
  Api._handle_command obliging (Found (NotAFile "")) (Api.Object seek_nothing)
    (Some player_with_song)
  = (Api.failed 400 (Text "position parameter required"), Some player_with_song).
Proof.
  cbv zeta.
  pose proof (proj2 (proj1 (http_mute_and_seek failing (Found (NotAFile ""))
               {| Api.command := Some (JStr "mute"); Api.media_type := None;
                  Api.media_id := None; Api.level := None;
                  Api.muted := Some (JBool true); Api.position := None |}
               Player.PipePlayPlayer_init) eq_refl) true eq_refl) as H1.
  pose proof (proj2 (proj1 (http_mute_and_seek failing (Found (NotAFile ""))
               {| Api.command := Some (JStr "mute"); Api.media_type := None;
                  Api.media_id := None; Api.level := None;
                  Api.muted := Some (JBool true); Api.position := None |}
               player_with_song) eq_refl) true eq_refl) as H2.
  cbv zeta in H1, H2.
  split; [rewrite H1; reflexivity |].
  split; [rewrite H1; reflexivity |].
  split; [rewrite H2; reflexivity |].
  exact (proj1 (proj2 (http_mute_and_seek obliging (Found (NotAFile ""))
               {| Api.command := Some (JStr "seek"); Api.media_type := None;
                  Api.media_id := None; Api.level := None;
                  Api.muted := None; Api.position := None |}
               player_with_song) eq_refl) eq_refl).
Defined.

(** [play_media] over HTTP: a missing, null, empty or otherwise falsy
    [media_id] is refused with 400 and nothing is touched; an absent
    [media_type] is the same request as one with type music. *)
Theorem http_play_media_arguments (o : Oracle) (lookup : Lookup)
    (data : Api.CommandData) (p : Player.PipePlayPlayer) :
  Api.command data = Some (JStr "play_media") ->
  (Api.truthy (Api.media_id data) = false ->
     Api._handle_command o lookup (Api.Object data) (Some p)
     = (Api.failed 400 (Text "media_id required for play_media command"), Some p)) /\
  (Api.media_type data = None ->
     Api._handle_command o lookup (Api.Object data) (Some p)
     = Api._handle_command o lookup
         (Api.Object {| Api.command := Api.command data;
                        Api.media_type := Some (JStr "music");
                        Api.media_id := Api.media_id data;
                        Api.level := Api.level data;
                        Api.muted := Api.muted data;
                        Api.position := Api.position data |})
         (Some p)).
Proof.
  intros Hc. split.
  - intros Hid. unfold Api._handle_command, Api.dispatch. rewrite Hc. simpl.
    rewrite Hid. reflexivity.
  - intros Ht. unfold Api._handle_command, Api.dispatch. simpl.
    rewrite Hc, Ht. reflexivity.
Qed.

Lemma http_play_media_arguments_witness :
  Api._handle_command obliging (Found (NotAFile ""))
    (Api.Object (Api.play_media_request "")) (Some player_with_song)
  = (Api.failed 400 (Text "media_id required for play_media command"),
     Some player_with_song).
Proof.
  exact (proj1 (http_play_media_arguments obliging (Found (NotAFile ""))
                  (Api.play_media_request "") player_with_song eq_refl) eq_refl).
Defined.

(** ** The projections of the entity *)

Lemma quot_truncates (a : Z) (b : positive) :
  ((0 <= a)%Z ->
     (Z.quot a (Z.pos b) * Z.pos b <= a)%Z /\
     (a < (Z.quot a (Z.pos b) + 1) * Z.pos b)%Z) /\
  ((a <= 0)%Z ->
     ((Z.quot a (Z.pos b) - 1) * Z.pos b < a)%Z /\
     (a <= Z.quot a (Z.pos b) * Z.pos b)%Z).
Proof.
  split; intros Ha.
  - pose proof (Z.quot_rem' a (Z.pos b)) as E.
    pose proof (Z.rem_bound_pos a (Z.pos b) Ha (Pos2Z.is_pos b)) as B.
    lia.
  - assert (Hq : Z.quot a (Z.pos b) = (- Z.quot (- a) (Z.pos b))%Z).
    { rewrite Z.quot_opp_l by discriminate. lia. }
    pose proof (Z.quot_rem' (- a) (Z.pos b)) as E.
    assert (Hna : (0 <= - a)%Z) by lia.
    pose proof (Z.rem_bound_pos (- a) (Z.pos b) Hna (Pos2Z.is_pos b)) as B.
    rewrite Hq. lia.
Qed.

Lemma py_int_truncates (q : Q) :
  exists z, py_int (Fin q) = Ok z /\ truncates q z /\
            ((0 <= q)%Q -> (0 <= z)%Z).
Proof.
  destruct q as [a b]. exists (Z.quot a (Z.pos b)).
  split; [reflexivity |].
  destruct (quot_truncates a b) as [Hpos Hneg].
  unfold truncates, Qle, Qlt. simpl.
  split; [split |].
  - intros H. assert (Ha : (0 <= a)%Z) by lia.
    destruct (Hpos Ha). split; lia.
  - intros H. assert (Ha : (a <= 0)%Z) by lia.
    destruct (Hneg Ha). split; lia.
  - intros H. apply Z.quot_pos; lia.
Qed.

(** The reported position: [None] exactly for a stored position of zero;
    for any other finite position the integer obtained by truncating
    towards zero, so a position strictly between 0 and 1 is reported as 0
    and not as [None]; the property raises [ValueError] on a NaN and
    [OverflowError] on an infinite position. *)
Theorem media_position_projection (p : Player.PipePlayPlayer) :
  let pos := Backend.media_position (Player._backend p) in
  (pos = NaN -> Player.media_position p = Raised ValueError) /\
  (pos = PosInf \/ pos = NegInf ->
     Player.media_position p = Raised OverflowError) /\
  (forall q, pos = Fin q -> (q == 0)%Q -> Player.media_position p = Ok None) /\
  (forall q, pos = Fin q -> ~ (q == 0)%Q ->
     exists z, Player.media_position p = Ok (Some z) /\ truncates q z) /\
  (forall q, pos = Fin q -> (0 < q)%Q -> (q < 1)%Q ->
     Player.media_position p = Ok (Some 0%Z)).
Proof.
  cbv zeta. unfold Player.media_position.
  split; [intros ->; reflexivity |].
  split; [intros [-> | ->]; reflexivity |].
  assert (Hz : forall q, (q == 0)%Q <-> Qnum q = 0%Z).
  { intros [a b]. unfold Qeq. simpl. lia. }
  split; [| split].
  - intros q -> H0. simpl. apply Hz in H0. rewrite H0. reflexivity.
  - intros q -> Hn. simpl.
    destruct (Z.eqb_spec (Qnum q) 0) as [E | E]; [apply Hz in E; contradiction |].
    simpl. destruct (py_int_truncates q) as (z & Hi & Ht & _).
    simpl in Hi. injection Hi as <-. eexists. split; [reflexivity | exact Ht].
  - intros q -> Hpos Hlt. simpl.
    destruct (Z.eqb_spec (Qnum q) 0) as [E | E].
    { apply Hz in E. rewrite E in Hpos. discriminate Hpos. }
    simpl. destruct q as [a b]. unfold Qlt in *. simpl in *.
    rewrite Z.quot_small; [reflexivity | lia].
Qed.

Lemma media_position_projection_witness :
  Player.media_position
    (Player.with_backend (Backend.set_position half playing_song)
       Player.PipePlayPlayer_init) = Ok (Some 0%Z) /\
  Player.media_position player_with_song = Ok None /\
  Player.media_position
    (Player.with_backend (Backend.set_position NaN playing_song)
       Player.PipePlayPlayer_init) = Raised ValueError.
Proof.
  split; [| split].
  - apply (proj2 (proj2 (proj2 (proj2
      (media_position_projection
         (Player.with_backend (Backend.set_position half playing_song)
            Player.PipePlayPlayer_init))))) (1 # 2));
      reflexivity.
  - apply (proj1 (proj2 (proj2 (media_position_projection player_with_song))) 0);
      reflexivity.
  - apply (proj1 (media_position_projection
                    (Player.with_backend (Backend.set_position NaN playing_song)
                       Player.PipePlayPlayer_init))).
    reflexivity.
Defined.

(** The reported duration: [None] for every stored duration that is not
    greater than zero, a NaN included; for a positive finite duration its
    integer part, which is never negative; [OverflowError] is raised for
    plus infinity only, and [ValueError] never. *)
Theorem media_duration_projection (p : Player.PipePlayPlayer) :
  let dur := Backend.media_duration (Player._backend p) in
  (dur = NaN \/ dur = NegInf -> Player.media_duration p = Ok None) /\
  (dur = PosInf -> Player.media_duration p = Raised OverflowError) /\
  (forall q, dur = Fin q -> (q <= 0)%Q -> Player.media_duration p = Ok None) /\
  (forall q, dur = Fin q -> (0 < q)%Q ->
     exists z, Player.media_duration p = Ok (Some z) /\ (0 <= z)%Z /\
               (inject_Z z <= q)%Q /\ (q < inject_Z (z + 1))%Q) /\
  Player.media_duration p <> Raised ValueError.
Proof.
  cbv zeta. unfold Player.media_duration.
  split; [intros [-> | ->]; reflexivity |].
  split; [intros ->; reflexivity |].
  assert (Hle : forall q, (q <= 0)%Q ->
            ftruthy (Fin q) && fgt (Fin q) f0 = false).
  { intros q H. unfold fgt, f0. simpl.
    apply Qle_bool_iff in H. rewrite H. simpl.
    rewrite andb_false_r. apply andb_false_r. }
  assert (Hgt : forall q, (0 < q)%Q ->
            ftruthy (Fin q) && fgt (Fin q) f0 = true).
  { intros [a b] H. unfold fgt, f0, Qlt in *. simpl in *.
    destruct (Z.eqb_spec a 0) as [E | E]; [lia |]. simpl.
    assert (H1 : Qle_bool 0 (a # b) = true)
      by (apply Qle_bool_iff; unfold Qle; simpl; lia).
    assert (H2 : Qle_bool (a # b) 0 = false).
    { destruct (Qle_bool (a # b) 0) eqn:E2; [| reflexivity].
      apply Qle_bool_iff in E2. unfold Qle in E2. simpl in E2. lia. }
    rewrite H1, H2. reflexivity. }
  split; [| split].
  - intros q -> H. rewrite (Hle q H). reflexivity.
  - intros q -> H. rewrite (Hgt q H).
    destruct (py_int_truncates q) as (z & Hi & [Ht _] & Hz).
    rewrite Hi. exists z.
    assert (H0 : (0 <= q)%Q) by (apply Qlt_le_weak; exact H).
    destruct (Ht H0) as [Ha Hb].
    split; [reflexivity |]. split; [apply Hz; exact H0 |]. split; assumption.
  - destruct (Backend.media_duration (Player._backend p)) as [q | | |];
      simpl; try discriminate.
    destruct (negb (Qnum q =? 0)%Z && fgt (Fin q) f0); discriminate.
Qed.

Lemma media_duration_projection_witness :
  Player.media_duration
    (Player.with_backend (Backend.set_duration NaN playing_song)
       Player.PipePlayPlayer_init) = Ok None /\
  Player.media_duration
    (Player.with_backend (Backend.set_duration PosInf playing_song)
       Player.PipePlayPlayer_init) = Raised OverflowError /\
  exists z,
    Player.media_duration
      (Player.with_backend (Backend.set_duration (Fin (7 # 2)) playing_song)
         Player.PipePlayPlayer_init) = Ok (Some z) /\ (0 <= z)%Z.
Proof.
  split; [| split].
  - apply (proj1 (media_duration_projection
                    (Player.with_backend (Backend.set_duration NaN playing_song)
                       Player.PipePlayPlayer_init))).
    left. reflexivity.
  - apply (proj1 (proj2 (media_duration_projection
                    (Player.with_backend (Backend.set_duration PosInf playing_song)
                       Player.PipePlayPlayer_init)))).
    reflexivity.
  - destruct (proj1 (proj2 (proj2 (proj2 (media_duration_projection
                (Player.with_backend
                   (Backend.set_duration (Fin (7 # 2)) playing_song)
                   Player.PipePlayPlayer_init))))) (7 # 2) eq_refl eq_refl)
      as (z & Hz & Hpos & _).
    exists z. split; assumption.
Defined.

(** On every store the backend can reach, the entity never reports
    BUFFERING, and it reports idle, playing or paused exactly when the
    backend's state is that literal. *)
Theorem reported_state_reachable (p : Player.PipePlayPlayer) :
  Reachable (Player._backend p) ->
  Player.state p <> BUFFERING /\
  (Player.state p = IDLE <-> Backend.state (Player._backend p) = "idle") /\
  (Player.state p = PLAYING <-> Backend.state (Player._backend p) = "playing") /\
  (Player.state p = PAUSED <-> Backend.state (Player._backend p) = "paused").
Proof.
  intros Hr. destruct (reachable_well_shaped _ Hr) as [Hs _].
  unfold Player.state, Backend.state.
  destruct Hs as [-> | [-> | ->]]; simpl;
    repeat split; intros; congruence || discriminate.
Qed.

Lemma reported_state_reachable_witness :
  Reachable (Player._backend paused_player) /\
  Player.state paused_player <> BUFFERING /\
  Backend.state (Player._backend paused_player) = "paused".
Proof.
  assert (Hr : Reachable (Player._backend paused_player)).
  { exists [Do (CInitialize Returns) obliging; Do CSetStateCallback obliging;
            Do (CPlayMedia song (Some "music")) obliging;
            Deliver (PauseChanged (Some true))].
    reflexivity. }
  destruct (reported_state_reachable paused_player Hr) as (H1 & _ & _ & H4).
  split; [exact Hr |]. split; [exact H1 |]. apply H4. reflexivity.
Defined.

(** [async_play_media] records the media information before it calls the
    backend.  When the look-up returns, the information is the new item's
    whether or not the backend then accepts it and whether or not the state
    write is refused: title, artist and album as looked up, and content
    type podcast for type podcast, music for everything else.  When the
    look-up raises, the exception is re-raised and the entity is exactly as
    it was, the backend not called. *)
Theorem play_media_sets_media_info (o : Oracle) (lookup : Lookup)
    (mt id : string) (p : Player.PipePlayPlayer) :
  let r := Player.async_play_media o lookup mt id p in
  let p' := after r in
  match lookup with
  | Found probe =>
      Player.media_title p' =
        match probe with
        | LocalFile title _ _ => title
        | NotAFile name => Some (if struthy name then name else "Unknown")
        end /\
      Player.media_artist p' =
        match probe with LocalFile _ artist _ => artist | NotAFile _ => None end /\
      Player.media_album_name p' =
        match probe with LocalFile _ _ album => album | NotAFile _ => None end /\
      Player.media_content_type p' =
        Some (if String.eqb mt "podcast" then "podcast" else "music")
  | LookupRaises e => r = (Raised e, p)
  end.
Proof.
  cbv zeta. destruct lookup as [probe | e]; [| reflexivity].
  destruct p as [b0 t0 ar0 al0 ct0 du0 po0 ha0].
  unfold Player.async_play_media,
    after, try_except, bind, modify, raise,
    Player.MUSIC, Player.PODCAST.
  destruct probe as [t ar al | name]; simpl;
    destruct (String.eqb_spec mt "music") as [-> | Hm]; simpl;
    try destruct (String.eqb mt "podcast"); simpl;
    rewrite on_backend_run; simpl;
    destruct (Backend.play_media _ _ _ _) as [[[] | e] b1]; simpl;
    try rewrite schedule_run; simpl; try destruct ha0;
    repeat split.
Qed.

(** ** The interactive console *)





